(** * binance-mcp: the tool gateway of [src/index.ts], embedded in Rocq

    The server registers four tools and answers [tools/call] requests by
    one outbound HTTP GET each, formatting the reply as text.  The
    embedding follows the TypeScript source function by function:

    - [JS]      the fragment of the ECMAScript runtime the source relies on
                (strings, IEEE-754 numbers, dates, truthiness, exceptions);
    - [Server]  the handlers of [BinanceMCPServer] and its request handler
                for [CallToolRequestSchema];
    - [en_US]   number formatting of the [en-US] locale, the host locale of
                the examples.

    JavaScript numbers are binary64 values: they are modelled by Rocq's
    primitive floats, so every arithmetic operation below rounds exactly as
    the source does. *)

From Stdlib Require Import ZArith String Ascii List DecimalString.
From Stdlib Require Import Floats.PrimFloat Floats.SpecFloat Floats.FloatOps.
From stdpp Require Import base option list gmap strings.

Local Open Scope Z_scope.

(* ===================================================================== *)
(** * The ECMAScript fragment used by the server *)
(* ===================================================================== *)

Module JS.

(** ** Strings

    A string is a sequence of bytes holding UTF-8 text.  Trading symbols,
    interval names and decimal numerals are ASCII, and on ASCII text the
    operations below are the ECMAScript ones; where a text with other
    characters would be treated differently by the engine
    ([toUpperCase]), the engine's function is a parameter. *)

Definition nl : string := String "010"%char EmptyString.

(** The letters [a]-[z] to [A]-[Z], every other character as it is. *)
Definition upper_char (c : ascii) : ascii :=
  let n := nat_of_ascii c in
  if (Nat.leb 97 n && Nat.leb n 122)%bool then ascii_of_nat (n - 32) else c.

Fixpoint ascii_toUpperCase (s : string) : string :=
  match s with
  | EmptyString => EmptyString
  | String c r => String (upper_char c) (ascii_toUpperCase r)
  end.

(** Every character of [s] is an ASCII one. *)
Fixpoint is_ascii (s : string) : bool :=
  match s with
  | EmptyString => true
  | String c r => (Nat.ltb (nat_of_ascii c) 128 && is_ascii r)%bool
  end.

(** [s.toUpperCase()].  On ASCII text the result is fixed by the language:
    the letters [a]-[z] become [A]-[Z].  A text with other characters is
    mapped by the Unicode case conversion of the engine,
    [unicode_toUpperCase]. *)
Definition String_toUpperCase (unicode_toUpperCase : string -> string) (s : string)
  : string :=
  if is_ascii s then ascii_toUpperCase s else unicode_toUpperCase s.

(** No ASCII lower-case letter is left in [s]. *)
Definition is_lower (c : ascii) : bool :=
  let n := nat_of_ascii c in (Nat.leb 97 n && Nat.leb n 122)%bool.

Fixpoint no_lower_case (s : string) : bool :=
  match s with
  | EmptyString => true
  | String c r => (negb (is_lower c) && no_lower_case r)%bool
  end.

(** [s.startsWith(p)] *)
Fixpoint starts_with (p s : string) : bool :=
  match p, s with
  | EmptyString, _ => true
  | String a p', String b s' => if Ascii.eqb a b then starts_with p' s' else false
  | String _ _, EmptyString => false
  end.

Fixpoint String_drop (n : nat) (s : string) : string :=
  match n, s with
  | O, _ => s
  | S n', String _ r => String_drop n' r
  | S _, EmptyString => EmptyString
  end.

(** [s.replace(pat, by)] with a string pattern and a replacement free of
    [$] patterns: only the first occurrence of [pat], searched from the
    left, is replaced. *)
Fixpoint String_replace (pat by_ s : string) : string :=
  if starts_with pat s then by_ +:+ String_drop (String.length pat) s
  else match s with
       | EmptyString => EmptyString
       | String c r => String c (String_replace pat by_ r)
       end.

(** [s.split(sep)] for a one-character separator. *)
Fixpoint String_split (sep : ascii) (s : string) : list string :=
  match s with
  | EmptyString => [EmptyString]
  | String c r =>
      if Ascii.eqb c sep then EmptyString :: String_split sep r
      else match String_split sep r with
           | h :: t => String c h :: t
           | [] => [String c EmptyString]
           end
  end.

(** [a.join(sep)] on an array of strings. *)
Fixpoint Array_join (sep : string) (l : list string) : string :=
  match l with
  | [] => EmptyString
  | [x] => x
  | x :: r => x +:+ sep +:+ Array_join sep r
  end.

(** [a.slice(-n)]: the last [n] elements (all of them when there are
    fewer). *)
Definition Array_slice_last {A} (n : nat) (l : list A) : list A :=
  skipn (length l - n)%nat l.

(** ** Numbers *)

(** The decimal numeral of a natural number. *)
Definition dec (n : Z) : string := NilZero.string_of_uint (N.to_uint (Z.to_N n)).

Fixpoint count_digits (fuel : nat) (n : Z) : Z :=
  match fuel with
  | O => 0
  | S f => if n =? 0 then 0 else 1 + count_digits f (n / 10)
  end.

(** Number of decimal digits of [n > 0]. *)
Definition digits10 (n : Z) : Z := count_digits (S (Z.to_nat (Z.log2 n))) n.

Fixpoint zeros (n : nat) : string :=
  match n with O => EmptyString | S k => String "0"%char (zeros k) end.

(** [n] written with at least [w] digits. *)
Definition pad (w : nat) (n : Z) : string :=
  let s := dec n in zeros (w - String.length s) +:+ s.

(** The binary64 value nearest to the positive rational [n / d], ties to
    even, with the given sign: the quotient is computed with at least 55
    significant bits and the position of the remainder is handed to the
    IEEE rounding of [SpecFloat]. *)
Definition round_ratio (neg : bool) (n d : Z) : float :=
  let s := Z.max 0 (56 + Z.log2 d - Z.log2 n) in
  let n' := Z.shiftl n s in
  let q := n' / d in
  let r := n' mod d in
  let loc := if r =? 0 then loc_Exact else loc_Inexact (2 * r ?= d) in
  SF2Prim (binary_round_aux prec emax neg q (- s) loc).

(** The Number value of [m * 10^e], [m >= 0] (ECMAScript: the mathematical
    value rounded to nearest, ties to even).  Magnitudes beyond the range
    of binary64 are decided without computing the power. *)
Definition decimal_to_float (neg : bool) (m e : Z) : float :=
  if m =? 0 then (if neg then neg_zero else zero)
  else
    let nd := digits10 m in
    if 310 <? nd + e then (if neg then neg_infinity else infinity)
    else if nd + e <? -330 then (if neg then neg_zero else zero)
    else if 0 <=? e then round_ratio neg (m * 10 ^ e) 1
    else round_ratio neg m (10 ^ (- e)).

(** A finite non-zero number as sign and exact fraction [n / d]. *)
Definition exact (x : float) : option (bool * Z * Z) :=
  match Prim2SF x with
  | S754_finite s m e =>
      if 0 <=? e then Some (s, Z.pos m * 2 ^ e, 1)
      else Some (s, Z.pos m, 2 ^ (- e))
  | _ => None
  end.

(** *** [parseFloat] *)

Definition is_space (c : ascii) : bool :=
  let n := nat_of_ascii c in
  ((Nat.leb 9 n && Nat.leb n 13) || Nat.eqb n 32)%bool.

Fixpoint trim_start (s : string) : string :=
  match s with
  | String c r => if is_space c then trim_start r else s
  | EmptyString => s
  end.

Definition digit_of (c : ascii) : option Z :=
  let n := nat_of_ascii c in
  if (Nat.leb 48 n && Nat.leb n 57)%bool then Some (Z.of_nat (n - 48)) else None.

(** Reads a run of decimal digits: the value accumulated on [acc], the
    number of digits read and the rest of the string. *)
Fixpoint read_digits (s : string) (acc cnt : Z) : Z * Z * string :=
  match s with
  | String c r =>
      match digit_of c with
      | Some d => read_digits r (10 * acc + d) (cnt + 1)
      | None => (acc, cnt, s)
      end
  | EmptyString => (acc, cnt, s)
  end.

Definition read_sign (s : string) : bool * string :=
  match s with
  | String "-"%char r => (true, r)
  | String "+"%char r => (false, r)
  | _ => (false, s)
  end.

(** The exponent part [e[+-]digits], when present and complete. *)
Definition read_exponent (s : string) : Z :=
  match s with
  | String c r =>
      if (Ascii.eqb c "e" || Ascii.eqb c "E")%bool then
        let (eneg, r') := read_sign r in
        let '(ev, ec, _) := read_digits r' 0 0 in
        if ec =? 0 then 0 else if eneg then - ev else ev
      else 0
  | EmptyString => 0
  end.

(** [parseFloat(s)]: leading white space is skipped, the longest prefix
    that is a [StrDecimalLiteral] is converted, anything else is [NaN]. *)
Definition parseFloat_string (s : string) : float :=
  let (neg, s0) := read_sign (trim_start s) in
  if starts_with "Infinity" s0 then (if neg then neg_infinity else infinity)
  else
    let '(ip, ic, s1) := read_digits s0 0 0 in
    let '(fp, fc, s2) :=
      match s1 with
      | String "."%char r => read_digits r ip 0
      | _ => (ip, 0, s1)
      end in
    if ic + fc =? 0 then nan
    else decimal_to_float neg fp (read_exponent s2 - fc).

(** *** [Number::toString] *)

(** The decimal position [n] of the positive rational [xn / xd]:
    [10^(n-1) <= xn/xd < 10^n]. *)
Fixpoint scale_up (fuel : nat) (xn xd : Z) (j : Z) : Z :=
  match fuel with
  | O => j
  | S f => if xd <=? xn then j else scale_up f (10 * xn) xd (j + 1)
  end.

Definition dec_position (xn xd : Z) : Z :=
  if xd <=? xn then digits10 (xn / xd)
  else 1 - scale_up 400 (10 * xn) xd 1.

(** [xn/xd / 10^sc] as a fraction of integers. *)
Definition scaled (xn xd sc : Z) : Z * Z :=
  if 0 <=? sc then (xn, xd * 10 ^ sc) else (xn * 10 ^ (- sc), xd).

(** The shortest digit string [s] (as a number) and scale [sc] with
    [s * 10^sc] reading back as [x]; among the candidates of that length
    the one nearest to [x]. *)
Fixpoint shortest (fuel : nat) (x : float) (xn xd n k : Z) : Z * Z :=
  match fuel with
  | O => (0, 0)
  | S f =>
      let sc := n - k in
      let (a, b) := scaled xn xd sc in
      let lo := a / b in
      let hi := lo + 1 in
      let ok_lo := if lo =? 0 then false
                   else PrimFloat.Leibniz.eqb (decimal_to_float false lo sc) x in
      let ok_hi := PrimFloat.Leibniz.eqb (decimal_to_float false hi sc) x in
      (* distance of [x] to [lo] is (a mod b)/b, to [hi] it is 1 - that *)
      let near_lo := 2 * (a mod b) <=? b in
      match ok_lo, ok_hi with
      | true, true => if near_lo then (lo, sc) else (hi, sc)
      | true, false => (lo, sc)
      | false, true => (hi, sc)
      | false, false => shortest f x xn xd n (k + 1)
      end
  end.

Fixpoint strip_zeros (fuel : nat) (s sc : Z) : Z * Z :=
  match fuel with
  | O => (s, sc)
  | S f => if (s mod 10 =? 0) && negb (s =? 0) then strip_zeros f (s / 10) (sc + 1)
           else (s, sc)
  end.

Definition String_take (n : nat) (s : string) : string := String.substring 0 n s.

(** The layout of [Number::toString] for digits [ds] and position [n]. *)
Definition layout (ds : string) (n : Z) : string :=
  let k := Z.of_nat (String.length ds) in
  if (k <=? n) && (n <=? 21) then ds +:+ zeros (Z.to_nat (n - k))
  else if (0 <? n) && (n <=? 21) then
    String_take (Z.to_nat n) ds +:+ "." +:+ String_drop (Z.to_nat n) ds
  else if (-6 <? n) && (n <=? 0) then "0." +:+ zeros (Z.to_nat (- n)) +:+ ds
  else
    let e := n - 1 in
    let es := (if 0 <=? e then "+" else "-") +:+ dec (Z.abs e) in
    if k =? 1 then ds +:+ "e" +:+ es
    else String_take 1 ds +:+ "." +:+ String_drop 1 ds +:+ "e" +:+ es.

Definition Number_toString (x : float) : string :=
  match exact x with
  | Some (neg, xn, xd) =>
      let n := dec_position xn xd in
      let (s0, sc0) := shortest 17 (abs x) xn xd n 1 in
      let (s, sc) := strip_zeros 400 s0 sc0 in
      let ds := dec s in
      (if neg then "-" else "") +:+ layout ds (Z.of_nat (String.length ds) + sc)
  | None =>
      if is_nan x then "NaN"
      else if is_zero x then "0"
      else if (x <? 0)%float then "-Infinity" else "Infinity"
  end.

(** *** [Number.prototype.toFixed] *)

(** [x.toFixed(f)]: the integer [n] with [n / 10^f] nearest to [x] (the
    larger on a tie), printed with [f] fraction digits; magnitudes from
    [10^21] on are printed by [Number::toString]. *)
Definition Number_toFixed (f : nat) (x : float) : string :=
  match exact x with
  | Some (neg, xn, xd) =>
      if 10 ^ 21 * xd <=? xn then Number_toString x
      else
        let p := 10 ^ Z.of_nat f in
        let n := (2 * xn * p + xd) / (2 * xd) in
        let m := pad (S f) n in
        let k := String.length m in
        (if neg then "-" else "")
        +:+ (if Nat.eqb f 0 then m
             else String_take (k - f) m +:+ "." +:+ String_drop (k - f) m)
  | None =>
      if is_nan x then "NaN"
      else if is_zero x then
        (if Nat.eqb f 0 then "0" else "0." +:+ zeros f)
      else if (x <? 0)%float then "-Infinity" else "Infinity"
  end.

(** *** [Math.max] and [Math.min] over a spread array

    [NaN] is contagious, [+0] counts as larger than [-0], and the empty
    array gives the infinities. *)

Definition max_step (highest x : float) : float :=
  if (is_nan highest || is_nan x)%bool then nan
  else if (is_zero x && negb (get_sign x) && is_zero highest && get_sign highest)%bool
       then x
  else if (highest <? x)%float then x else highest.

Definition min_step (lowest x : float) : float :=
  if (is_nan lowest || is_nan x)%bool then nan
  else if (is_zero x && get_sign x && is_zero lowest && negb (get_sign lowest))%bool
       then x
  else if (x <? lowest)%float then x else lowest.

Definition Math_max (l : list float) : float := fold_left max_step l neg_infinity.
Definition Math_min (l : list float) : float := fold_left min_step l infinity.

(** ** Values

    The scalar JSON values, and [undefined] for what is absent: the type of
    a tool argument and of a cell of a candle row. *)

Inductive jsval :=
| VUndefined
| VNull
| VBool (b : bool)
| VNum (x : float)
| VStr (s : string).

(** [ToBoolean]: the falsy values are [undefined], [null], [false], [0],
    [-0], [NaN] and the empty string. *)
Definition ToBoolean (v : jsval) : bool :=
  match v with
  | VUndefined | VNull => false
  | VBool b => b
  | VNum x => negb (is_nan x || is_zero x)
  | VStr s => negb (String.eqb s "")
  end.

(** [a || b] *)
Definition or_else (a b : jsval) : jsval := if ToBoolean a then a else b.

Definition ToString (v : jsval) : string :=
  match v with
  | VUndefined => "undefined"
  | VNull => "null"
  | VBool true => "true"
  | VBool false => "false"
  | VNum x => Number_toString x
  | VStr s => s
  end.

(** [parseFloat(v)] converts its argument to a string first. *)
Definition parseFloat (v : jsval) : float := parseFloat_string (ToString v).

(** ** Exceptions *)

Inductive exn :=
| Error (msg : string)
| TypeError (msg : string)
| RangeError (msg : string).

(** [error.message]; every exception here is an instance of [Error]. *)
Definition message (e : exn) : string :=
  match e with Error m | TypeError m | RangeError m => m end.

Inductive completion (A : Type) :=
| Normal (a : A)
| Throw (e : exn).
Arguments Normal {A} a.
Arguments Throw {A} e.

Definition cbind {A B} (c : completion A) (k : A -> completion B) : completion B :=
  match c with Normal a => k a | Throw e => Throw e end.

(** [a.map(f)] when [f] may throw: the first exception ends the loop. *)
Fixpoint Array_map {A B} (f : A -> completion B) (l : list A) : completion (list B) :=
  match l with
  | [] => Normal []
  | x :: r => cbind (f x) (fun y => cbind (Array_map f r) (fun ys => Normal (y :: ys)))
  end.

(** [a.map((x, index) => f)] *)
Fixpoint Array_mapi_from {A B} (i : nat) (f : A -> nat -> completion B) (l : list A)
  : completion (list B) :=
  match l with
  | [] => Normal []
  | x :: r =>
      cbind (f x i) (fun y =>
      cbind (Array_mapi_from (S i) f r) (fun ys => Normal (y :: ys)))
  end.

Definition Array_mapi {A B} (f : A -> nat -> completion B) (l : list A) :=
  Array_mapi_from 0 f l.

(** [v.toUpperCase()] on a value the source casts to [string]; [what] is
    the expression the engine names in its message. *)
Definition call_toUpperCase (unicode_toUpperCase : string -> string) (what : string)
           (v : jsval) : completion string :=
  match v with
  | VStr s => Normal (String_toUpperCase unicode_toUpperCase s)
  | VUndefined =>
      Throw (TypeError "Cannot read properties of undefined (reading 'toUpperCase')")
  | VNull =>
      Throw (TypeError "Cannot read properties of null (reading 'toUpperCase')")
  | _ => Throw (TypeError (what +:+ ".toUpperCase is not a function"))
  end.

(** ** Dates

    A date holds a time value: milliseconds since the epoch, or nothing
    for an invalid date. *)

(** The integral part of a finite number. *)
Definition truncate (x : float) : Z :=
  match exact x with
  | Some (neg, n, d) => if neg then - (n / d) else n / d
  | None => 0
  end.

Definition TimeClip (x : float) : option Z :=
  if (is_nan x || is_infinity x)%bool then None
  else if (8.64e15 <? abs x)%float then None
  else Some (truncate x).

(** [new Date(v)]: a string is parsed by the host's [Date.parse], any
    other value is converted to a number. *)
Definition Date_new (Date_parse : string -> float) (v : jsval) : option Z :=
  match v with
  | VStr s => TimeClip (Date_parse s)
  | VNum x => TimeClip x
  | VUndefined => None
  | VNull => Some 0
  | VBool b => Some (if b then 1 else 0)
  end.

(** Year, month and day of the proleptic Gregorian calendar for a day
    number counted from 1970-01-01. *)
Definition civil_from_days (days : Z) : Z * Z * Z :=
  let z := days + 719468 in
  let era := z / 146097 in
  let doe := z - era * 146097 in
  let yoe := (doe - doe / 1460 + doe / 36524 - doe / 146096) / 365 in
  let doy := doe - (365 * yoe + yoe / 4 - yoe / 100) in
  let mp := (5 * doy + 2) / 153 in
  let d := doy - (153 * mp + 2) / 5 + 1 in
  let m := if mp <? 10 then mp + 3 else mp - 9 in
  let y := yoe + era * 400 + (if m <=? 2 then 1 else 0) in
  (y, m, d).

(** [d.toISOString()]: [YYYY-MM-DDTHH:mm:ss.sssZ] in UTC, years outside
    0..9999 with a sign and six digits; an invalid date throws. *)
Definition Date_toISOString (d : option Z) : completion string :=
  match d with
  | None => Throw (RangeError "Invalid time value")
  | Some tv =>
      let day := tv / 86400000 in
      let t := tv mod 86400000 in
      let '(y, m, dd) := civil_from_days day in
      let ys := if (0 <=? y) && (y <=? 9999) then pad 4 y
                else (if y <? 0 then "-" else "+") +:+ pad 6 (Z.abs y) in
      Normal (ys +:+ "-" +:+ pad 2 m +:+ "-" +:+ pad 2 dd +:+ "T"
              +:+ pad 2 (t / 3600000) +:+ ":" +:+ pad 2 (t / 60000 mod 60) +:+ ":"
              +:+ pad 2 (t / 1000 mod 60) +:+ "." +:+ pad 3 (t mod 1000) +:+ "Z")
  end.

End JS.

(* ===================================================================== *)
(** * The server: [class BinanceMCPServer] *)
(* ===================================================================== *)

Import JS.

(** ** Wire shapes *)

(** The reply of every tool: [{ content: [{ type, text }] }]. *)
Record ContentItem := { type : string; text : string }.
Record ToolResult := { content : list ContentItem }.

(** [{ content: [{ type: "text", text }] }] *)
Definition text_result (t : string) : ToolResult :=
  {| content := [ {| type := "text"; text := t |} ] |}.

(** The body of [/ticker/price]. *)
Module Price.
Record data := { symbol : string; price : string }.
End Price.

(** [interface BinanceTicker24hr] *)
Module Ticker.
Record BinanceTicker24hr := {
  symbol : string;
  priceChange : string;
  priceChangePercent : string;
  weightedAvgPrice : string;
  prevClosePrice : string;
  lastPrice : string;
  lastQty : string;
  bidPrice : string;
  bidQty : string;
  askPrice : string;
  askQty : string;
  openPrice : string;
  highPrice : string;
  lowPrice : string;
  volume : string;
  quoteVolume : string;
  openTime : Z;
  closeTime : Z;
  firstId : Z;
  lastId : Z;
  count : Z
}.
End Ticker.

(** One candle as delivered: an array decoded by position ([kline: any[]]). *)
Definition kline := list jsval.

(** [kline[i]]: [undefined] beyond the end. *)
Definition cell (k : kline) (i : nat) : jsval := nth i k VUndefined.

(** The body of [/klines]: an array of rows, or [None] for a falsy body
    ([null], nothing). *)
Definition klines_body := option (list kline).

(** An outbound [axios.get(url, { params })]. *)
Record request := { url : string; params : list (string * jsval) }.

(** [params.key] *)
Fixpoint param (key : string) (ps : list (string * jsval)) : jsval :=
  match ps with
  | [] => VUndefined
  | (k, v) :: r => if String.eqb k key then v else param key r
  end.

(** The market-data source: what each endpoint answers to a request, a
    body or a failure of the HTTP client.  A body has the shape the
    source declares for it ([BinanceTickerPrice], [BinanceTicker24hr],
    rows of cells): its fields are strings.  A body of another shape, on
    which a handler would throw after it has arrived, is not among the
    answers of a [DataSource]. *)
Record DataSource := {
  ticker_price : request -> completion Price.data;
  ticker_24hr : request -> completion Ticker.BinanceTicker24hr;
  klines_of : request -> completion klines_body
}.

(** An inbound [tools/call]: [request.params] with its [name] and its
    optional [arguments]. *)
Record CallToolRequest := {
  name : string;
  arguments : option (gmap string jsval)
}.

(** [args.key]: [undefined] when the property is absent. *)
Definition prop (args : gmap string jsval) (key : string) : jsval :=
  default VUndefined (args !! key).

(** ** Computations

    A handler runs to a completion and issues outbound requests on the
    way: the requests are recorded in order. *)

Definition io (A : Type) : Type := list request * completion A.

Definition ret {A} (a : A) : io A := ([], Normal a).
Definition throw {A} (e : exn) : io A := ([], Throw e).
Definition lift {A} (c : completion A) : io A := ([], c).

Definition bind {A B} (m : io A) (k : A -> io B) : io B :=
  match m with
  | (sent, Normal a) => let (sent', r) := k a in (sent ++ sent', r)
  | (sent, Throw e) => (sent, Throw e)
  end.

(** [try { body } catch (error) { handler }] *)
Definition try_catch {A} (body : io A) (handler : exn -> io A) : io A :=
  match body with
  | (sent, Normal a) => (sent, Normal a)
  | (sent, Throw e) => let (sent', r) := handler e in (sent ++ sent', r)
  end.

(** [await axios.get(url, { params })], then [response.data]. *)
Definition axios_get {A} (endpoint : request -> completion A) (r : request) : io A :=
  ([r], endpoint r).

Notation "'await' x <- m ;; k" := (bind m (fun x => k))
  (at level 10, x name, m at level 90, k at level 200,
   format "'[v' 'await'  x  <-  m  ;;  '/' k ']'").

(** The requests a run has sent and how it completed. *)
Definition sent {A} (m : io A) : list request := fst m.
Definition outcome {A} (m : io A) : completion A := snd m.

(** ** Capability discovery: the [ListToolsRequestSchema] handler *)

Record PropertySchema := {
  p_name : string;
  p_type : string;
  p_description : string;
  p_enum : option (list string);
  p_minimum : option Z;
  p_maximum : option Z
}.

Record Tool := {
  tool_name : string;
  description : string;
  properties : list PropertySchema;
  required : list string
}.

Definition symbol_schema : PropertySchema :=
  {| p_name := "symbol"; p_type := "string";
     p_description := "Trading pair symbol (e.g., BTCUSDT, ETHUSDT)";
     p_enum := None; p_minimum := None; p_maximum := None |}.

Definition interval_enum : list string :=
  ["1m"; "3m"; "5m"; "15m"; "30m"; "1h"; "2h"; "4h"; "6h"; "8h"; "12h";
   "1d"; "3d"; "1w"; "1M"].

Definition ListTools : list Tool :=
  [ {| tool_name := "get_current_price";
       description := "Get current price for a cryptocurrency symbol";
       properties := [symbol_schema];
       required := ["symbol"] |};
    {| tool_name := "get_24hr_ticker";
       description := "Get 24hr ticker price change statistics";
       properties := [symbol_schema];
       required := ["symbol"] |};
    {| tool_name := "get_kline_data";
       description := "Get candlestick/kline data for a symbol with specified timeframe";
       properties :=
         [ symbol_schema;
           {| p_name := "interval"; p_type := "string";
              p_description :=
                "Timeframe interval (1m, 3m, 5m, 15m, 30m, 1h, 2h, 4h, 6h, 8h, 12h, 1d, 3d, 1w, 1M)";
              p_enum := Some interval_enum;
              p_minimum := None; p_maximum := None |};
           {| p_name := "limit"; p_type := "number";
              p_description := "Number of klines to return (default: 100, max: 1000)";
              p_enum := None; p_minimum := Some 1; p_maximum := Some 1000 |} ];
       required := ["symbol"; "interval"] |};
    {| tool_name := "get_price_history";
       description := "Get historical price data with OHLCV information";
       properties :=
         [ symbol_schema;
           {| p_name := "interval"; p_type := "string";
              p_description := "Timeframe interval (15m, 1h, 4h, 1d, etc.)";
              p_enum := None; p_minimum := None; p_maximum := None |};
           {| p_name := "limit"; p_type := "number";
              p_description := "Number of data points to return (default: 24)";
              p_enum := None; p_minimum := Some 1; p_maximum := Some 1000 |} ];
       required := ["symbol"; "interval"] |} ].

(** ** The handlers *)

(** The parsed candle of [getKlineData]. *)
Module Candle.
Record t := { time : string; open : float; high : float; low : float;
              close : float; volume : float }.
End Candle.

(** An entry of [historicalData] in [getPriceHistory]. *)
Module Period.
Record t := { period : nat; timestamp : string; open : float; high : float;
              low : float; close : float; volume : float; change : float }.
End Period.

(** [x >= 0 ? '+' : ''] *)
Definition plus_sign (x : float) : string := if (0 <=? x)%float then "+" else "".

(** [symbol.replace('USDT', '').replace('BUSD', '').replace('BTC', '').replace('ETH', '')] *)
Definition asset_label (symbol : string) : string :=
  String_replace "ETH" ""
    (String_replace "BTC" ""
       (String_replace "BUSD" ""
          (String_replace "USDT" "" symbol))).

(** [ts.split('T')[0]] inside a template literal. *)
Definition date_part (ts : string) : string :=
  nth 0 (String_split "T" ts) "undefined".

(** [ts.split('T')[1].split('.')[0]] inside a template literal. *)
Definition time_part (ts : string) : completion string :=
  match nth_error (String_split "T" ts) 1 with
  | Some t => Normal (nth 0 (String_split "." t) "undefined")
  | None => Throw (TypeError "Cannot read properties of undefined (reading 'split')")
  end.

(** [a[a.length - 1]] followed by a property read. *)
Definition last_item {A} (what : string) (l : list A) : completion A :=
  match last l with
  | Some x => Normal x
  | None =>
      Throw (TypeError ("Cannot read properties of undefined (reading '" +:+ what +:+ "')"))
  end.

(** [a[0]] followed by a property read. *)
Definition first_item {A} (what : string) (l : list A) : completion A :=
  match l with
  | x :: _ => Normal x
  | [] =>
      Throw (TypeError ("Cannot read properties of undefined (reading '" +:+ what +:+ "')"))
  end.

Section Server.

(** The host: its Unicode tables decide [String.prototype.toUpperCase]
    beyond ASCII, its default locale and time zone decide
    [Number.prototype.toLocaleString] and [Date.prototype.toLocaleString];
    [Date.parse] reads a date string. *)
Variable Unicode_toUpperCase : string -> string.
Variable Number_toLocaleString : float -> string.
Variable Date_toLocaleString : option Z -> string.
Variable Date_parse : string -> float.

(** The data source behind [axios]. *)
Variable src : DataSource.

Definition baseURL : string := "https://api.binance.com/api/v3".

Definition getCurrentPrice (symbol : jsval) : io ToolResult :=
  try_catch
    (await sym <- lift (call_toUpperCase Unicode_toUpperCase "symbol" symbol) ;;
     await data <- axios_get (ticker_price src)
                     {| url := baseURL +:+ "/ticker/price";
                        params := [("symbol", VStr sym)] |} ;;
     ret (text_result
            ("Current price for " +:+ Price.symbol data +:+ ": $"
             +:+ Number_toLocaleString (parseFloat_string (Price.price data)))))
    (fun error =>
       throw (Error ("Failed to fetch current price: " +:+ message error))).

Definition get24hrTicker (symbol : jsval) : io ToolResult :=
  try_catch
    (await sym <- lift (call_toUpperCase Unicode_toUpperCase "symbol" symbol) ;;
     await data <- axios_get (ticker_24hr src)
                     {| url := baseURL +:+ "/ticker/24hr";
                        params := [("symbol", VStr sym)] |} ;;
     let priceChange := parseFloat_string (Ticker.priceChange data) in
     let priceChangePercent := parseFloat_string (Ticker.priceChangePercent data) in
     let currentPrice := parseFloat_string (Ticker.lastPrice data) in
     let volume := parseFloat_string (Ticker.volume data) in
     let high24h := parseFloat_string (Ticker.highPrice data) in
     let low24h := parseFloat_string (Ticker.lowPrice data) in
     ret (text_result
            ("📊 " +:+ Ticker.symbol data +:+ " - 24hr Statistics:" +:+ nl
             +:+ "            " +:+ nl
             +:+ "💰 Current Price: $" +:+ Number_toLocaleString currentPrice +:+ nl
             +:+ "📈 24h Change: " +:+ plus_sign priceChange +:+ "$"
             +:+ Number_toFixed 4 priceChange
             +:+ " (" +:+ plus_sign priceChangePercent
             +:+ Number_toFixed 2 priceChangePercent +:+ "%)" +:+ nl
             +:+ "🔼 24h High: $" +:+ Number_toLocaleString high24h +:+ nl
             +:+ "🔽 24h Low: $" +:+ Number_toLocaleString low24h +:+ nl
             +:+ "📊 24h Volume: " +:+ Number_toLocaleString volume +:+ " "
             +:+ asset_label (Ticker.symbol data) +:+ nl
             +:+ "💵 Quote Volume: $"
             +:+ Number_toLocaleString (parseFloat_string (Ticker.quoteVolume data)))))
    (fun error =>
       throw (Error ("Failed to fetch 24hr ticker: " +:+ message error))).

(** The request both candle tools send. *)
Definition klines_request (sym : string) (interval limit : jsval) : request :=
  {| url := baseURL +:+ "/klines";
     params := [("symbol", VStr sym); ("interval", interval); ("limit", limit)] |}.

(** The callback of [klines.slice(-5).map] in [getKlineData]. *)
Definition parse_candle (kline : kline) : completion Candle.t :=
  cbind (Date_toISOString (Date_new Date_parse (cell kline 0))) (fun time =>
  Normal {| Candle.time := time;
            Candle.open := parseFloat (cell kline 1);
            Candle.high := parseFloat (cell kline 2);
            Candle.low := parseFloat (cell kline 3);
            Candle.close := parseFloat (cell kline 4);
            Candle.volume := parseFloat (cell kline 5) |}).

(** A line of [Recent 5 candles]. *)
Definition candle_line (k : Candle.t) : string :=
  Date_toLocaleString (Date_new Date_parse (VStr (Candle.time k)))
  +:+ ": O:" +:+ Number_toFixed 2 (Candle.open k)
  +:+ " H:" +:+ Number_toFixed 2 (Candle.high k)
  +:+ " L:" +:+ Number_toFixed 2 (Candle.low k)
  +:+ " C:" +:+ Number_toFixed 2 (Candle.close k).

Definition getKlineData (symbol interval limit : jsval) : io ToolResult :=
  try_catch
    (await sym <- lift (call_toUpperCase Unicode_toUpperCase "symbol" symbol) ;;
     await klines <- axios_get (klines_of src) (klines_request sym interval limit) ;;
     match klines with
     | None | Some [] => throw (Error "No kline data received")
     | Some klines =>
         await lastKlines <- lift (Array_map parse_candle (Array_slice_last 5 klines)) ;;
         await latestKline <- lift (last_item "time" lastKlines) ;;
         ret (text_result
                ("📈 " +:+ sym +:+ " Kline Data (" +:+ ToString interval
                 +:+ " interval, last " +:+ ToString limit +:+ " periods):" +:+ nl
                 +:+ nl
                 +:+ "Latest Candle:" +:+ nl
                 +:+ "🕐 Time: " +:+ Candle.time latestKline +:+ nl
                 +:+ "🟢 Open: $" +:+ Number_toLocaleString (Candle.open latestKline) +:+ nl
                 +:+ "🔴 Close: $" +:+ Number_toLocaleString (Candle.close latestKline) +:+ nl
                 +:+ "🔼 High: $" +:+ Number_toLocaleString (Candle.high latestKline) +:+ nl
                 +:+ "🔽 Low: $" +:+ Number_toLocaleString (Candle.low latestKline) +:+ nl
                 +:+ "📊 Volume: " +:+ Number_toLocaleString (Candle.volume latestKline) +:+ nl
                 +:+ nl
                 +:+ "Recent 5 candles:" +:+ nl
                 +:+ Array_join nl (map candle_line lastKlines) +:+ nl
                 +:+ nl
                 +:+ "Total data points received: " +:+ dec (Z.of_nat (length klines))))
     end)
    (fun error =>
       throw (Error ("Failed to fetch kline data: " +:+ message error))).

(** The callback of [klines.map] in [getPriceHistory]. *)
Definition parse_period (klines : list kline) (kline : kline) (index : nat)
  : completion Period.t :=
  cbind (Date_toISOString (Date_new Date_parse (cell kline 0))) (fun timestamp =>
  Normal {| Period.period := index + 1;
            Period.timestamp := timestamp;
            Period.open := parseFloat (cell kline 1);
            Period.high := parseFloat (cell kline 2);
            Period.low := parseFloat (cell kline 3);
            Period.close := parseFloat (cell kline 4);
            Period.volume := parseFloat (cell kline 5);
            Period.change :=
              if (0 <? index)%nat then
                ((parseFloat (cell kline 4)
                  - parseFloat (cell (nth (index - 1) klines []) 4))
                 / parseFloat (cell (nth (index - 1) klines []) 4) * 100)%float
              else 0%float |}).

Definition historicalData (klines : list kline) : completion (list Period.t) :=
  Array_mapi (parse_period klines) klines.

Definition totalChange (latest oldest : Period.t) : float :=
  ((Period.close latest - Period.open oldest) / Period.open oldest * 100)%float.

(** A line of [Recent 10 periods]. *)
Definition period_line (d : Period.t) : completion string :=
  cbind (time_part (Period.timestamp d)) (fun hms =>
  Normal (date_part (Period.timestamp d) +:+ " " +:+ hms +:+ ": "
          +:+ Number_toFixed 2 (Period.close d)
          +:+ " (" +:+ plus_sign (Period.change d)
          +:+ Number_toFixed 2 (Period.change d) +:+ "%)")).

Definition getPriceHistory (symbol interval limit : jsval) : io ToolResult :=
  try_catch
    (await sym <- lift (call_toUpperCase Unicode_toUpperCase "symbol" symbol) ;;
     await klines <- axios_get (klines_of src) (klines_request sym interval limit) ;;
     match klines with
     | None | Some [] => throw (Error "No historical data received")
     | Some klines =>
         await hist <- lift (historicalData klines) ;;
         await latest <- lift (last_item "close" hist) ;;
         await oldest <- lift (first_item "open" hist) ;;
         let total := totalChange latest oldest in
         await lines <- lift (Array_map period_line (Array_slice_last 10 hist)) ;;
         ret (text_result
                ("📊 " +:+ sym +:+ " Price History (" +:+ ToString interval
                 +:+ " intervals, " +:+ ToString limit +:+ " periods):" +:+ nl
                 +:+ nl
                 +:+ "📈 Summary:" +:+ nl
                 +:+ "• Period: " +:+ date_part (Period.timestamp oldest)
                 +:+ " to " +:+ date_part (Period.timestamp latest) +:+ nl
                 +:+ "• Starting Price: $" +:+ Number_toLocaleString (Period.open oldest) +:+ nl
                 +:+ "• Current Price: $" +:+ Number_toLocaleString (Period.close latest) +:+ nl
                 +:+ "• Total Change: " +:+ plus_sign total +:+ Number_toFixed 2 total
                 +:+ "%" +:+ nl
                 +:+ "• Highest: "
                 +:+ Number_toLocaleString (Math_max (map Period.high hist)) +:+ nl
                 +:+ "• Lowest: "
                 +:+ Number_toLocaleString (Math_min (map Period.low hist)) +:+ nl
                 +:+ nl
                 +:+ "📋 Recent 10 periods:" +:+ nl
                 +:+ Array_join nl lines))
     end)
    (fun error =>
       throw (Error ("Failed to fetch price history: " +:+ message error))).

(** ** Invocation dispatch: the [CallToolRequestSchema] handler *)

Definition CallTool (request : CallToolRequest) : io ToolResult :=
  match arguments request with
  | None => throw (Error "Missing arguments")
  | Some args =>
      try_catch
        (if String.eqb (name request) "get_current_price" then
           getCurrentPrice (prop args "symbol")
         else if String.eqb (name request) "get_24hr_ticker" then
           get24hrTicker (prop args "symbol")
         else if String.eqb (name request) "get_kline_data" then
           getKlineData (prop args "symbol") (prop args "interval")
                        (or_else (prop args "limit") (VNum 100))
         else if String.eqb (name request) "get_price_history" then
           getPriceHistory (prop args "symbol") (prop args "interval")
                           (or_else (prop args "limit") (VNum 24))
         else throw (Error ("Unknown tool: " +:+ name request)))
        (fun error => ret (text_result ("Error: " +:+ message error)))
  end.

End Server.

(* ===================================================================== *)
(** * The [en-US] locale *)
(* ===================================================================== *)

Module en_US.

(** Thousands separators for a digit string. *)
Fixpoint group (s : string) : string :=
  match s with
  | EmptyString => EmptyString
  | String c r =>
      let n := String.length r in
      String c ((if (Nat.eqb (n mod 3) 0 && Nat.ltb 0 n)%bool then "," else "")
                +:+ group r)
  end.

(** Up to three fraction digits, trailing zeros dropped. *)
Definition fraction (fp : Z) : string :=
  if fp =? 0 then ""
  else if fp mod 100 =? 0 then "." +:+ dec (fp / 100)
  else if fp mod 10 =? 0 then "." +:+ pad 2 (fp / 10)
  else "." +:+ pad 3 fp.

(** The thousandths nearest to the decimal [s * 10^sc], half-way cases
    away from zero. *)
Definition thousandths (s sc : Z) : Z :=
  if 0 <=? sc + 3 then s * 10 ^ (sc + 3)
  else (2 * s + 10 ^ (- (sc + 3))) / (2 * 10 ^ (- (sc + 3))).

(** [x.toLocaleString()] on an [en-US] host (ECMA-402 defaults: grouping,
    at most three fraction digits, half-way cases away from zero).  The
    formatter starts, as ICU does, from the shortest decimal that reads
    back as [x], the digits of [Number::toString]. *)
Definition Number_toLocaleString (x : float) : string :=
  match exact x with
  | Some (neg, xn, xd) =>
      let (s, sc) := shortest 17 (abs x) xn xd (dec_position xn xd) 1 in
      let n := thousandths s sc in
      (if neg then "-" else "") +:+ group (dec (n / 1000)) +:+ fraction (n mod 1000)
  | None =>
      if is_nan x then "NaN"
      else if is_zero x then (if get_sign x then "-0" else "0")
      else if (x <? 0)%float then "-∞" else "∞"
  end.

End en_US.

(* ===================================================================== *)
(** * Worked inputs and the vocabulary of the properties *)
(* ===================================================================== *)

Module Examples.

Definition btcusdt_price : Price.data :=
  {| Price.symbol := "BTCUSDT"; Price.price := "65000.5" |}.

Definition btcusdt_ticker : Ticker.BinanceTicker24hr :=
  {| Ticker.symbol := "BTCUSDT";
     Ticker.priceChange := "-94.99999800";
     Ticker.priceChangePercent := "-0.146";
     Ticker.weightedAvgPrice := "64950.12";
     Ticker.prevClosePrice := "65095.5";
     Ticker.lastPrice := "65000.5";
     Ticker.lastQty := "0.002";
     Ticker.bidPrice := "65000.4";
     Ticker.bidQty := "1.5";
     Ticker.askPrice := "65000.6";
     Ticker.askQty := "0.7";
     Ticker.openPrice := "65095.5";
     Ticker.highPrice := "66100";
     Ticker.lowPrice := "64200.25";
     Ticker.volume := "12345.678";
     Ticker.quoteVolume := "802469135.8";
     Ticker.openTime := 1700000000000;
     Ticker.closeTime := 1700086400000;
     Ticker.firstId := 1;
     Ticker.lastId := 1000;
     Ticker.count := 1000 |}.

(** [[0,"100","110","90","105","10"],[60000,"105","115","95","110","12"]] *)
Definition two_candles : list kline :=
  [ [VNum 0; VStr "100"; VStr "110"; VStr "90"; VStr "105"; VStr "10"];
    [VNum 60000; VStr "105"; VStr "115"; VStr "95"; VStr "110"; VStr "12"] ].

(** A source that answers every request with the bodies above. *)
Definition mock : DataSource :=
  {| ticker_price := fun _ => Normal btcusdt_price;
     ticker_24hr := fun _ => Normal btcusdt_ticker;
     klines_of := fun _ => Normal (Some two_candles) |}.

(** A source whose candle endpoint answers [[]]. *)
Definition empty_source : DataSource :=
  {| ticker_price := fun _ => Normal btcusdt_price;
     ticker_24hr := fun _ => Normal btcusdt_ticker;
     klines_of := fun _ => Normal (Some []) |}.

(** A host for the ASCII symbols of the examples: its case conversion
    beyond ASCII is never consulted. *)
Definition Unicode_toUpperCase (s : string) : string := s.

(** A host whose [Date.parse] reads no string; its dates then print as
    [Invalid Date]. *)
Definition Date_parse (s : string) : float := nan.
Definition Date_toLocaleString (d : option Z) : string := "Invalid Date".

Definition call (src : DataSource) (n : string) (args : option (gmap string jsval))
  : io ToolResult :=
  CallTool Unicode_toUpperCase en_US.Number_toLocaleString Date_toLocaleString
           Date_parse src {| name := n; arguments := args |}.

End Examples.

(** A reply of the uniform shape: exactly one content item, of type
    [text]. *)
Definition is_text_result (r : ToolResult) : Prop :=
  exists t, content r = [ {| type := "text"; text := t |} ].

(** A run that sends nothing. *)
Definition silent {A} (m : io A) : Prop := sent m = [].

(** A run whose reply, if it returns one, has the uniform shape. *)
Definition well_shaped (m : io ToolResult) : Prop :=
  forall r, outcome m = Normal r -> is_text_result r.

(** The default limit of a candle tool. *)
Definition default_limit (n : string) : float :=
  if String.eqb n "get_kline_data" then 100%float else 24%float.

(** The property [key] of the tool [n], as listed. *)
Definition declared (n key : string) : option PropertySchema :=
  match List.find (fun t => String.eqb (tool_name t) n) ListTools with
  | Some t => List.find (fun q => String.eqb (p_name q) key) (properties t)
  | None => None
  end.

(** The bounds the input schemas declare for [limit]. *)
Definition limit_in_bounds (v : jsval) : bool :=
  match v with
  | VNum x => ((1 <=? x)%float && (x <=? 1000)%float)%bool
  | _ => false
  end.

(** The enumeration the schema of [get_kline_data] declares for
    [interval]. *)
Definition interval_in_enum (v : jsval) : bool :=
  match v with
  | VStr s => existsb (String.eqb s) interval_enum
  | _ => false
  end.

(** The percentage changes as the specification words them, on the raw
    series: [close[i]] is the parsed fifth cell of row [i], [open[i]] the
    parsed second. *)
Definition close_of (klines : list kline) (i : nat) : float :=
  parseFloat (cell (nth i klines []) 4).

Definition open_of (klines : list kline) (i : nat) : float :=
  parseFloat (cell (nth i klines []) 1).

Definition spec_change (klines : list kline) (i : nat) : float :=
  match i with
  | O => 0%float
  | S j => ((close_of klines i - close_of klines j) / close_of klines j * 100)%float
  end.

Definition spec_total (klines : list kline) : float :=
  ((close_of klines (length klines - 1) - open_of klines 0)
   / open_of klines 0 * 100)%float.

(** A row whose first cell makes a valid date. *)
Definition dated (Date_parse : string -> float) (k : kline) : Prop :=
  is_Some (Date_new Date_parse (cell k 0)).

(** The text [line] stands somewhere in [text]. *)
Definition reports (line text : string) : Prop :=
  exists before after, text = before +:+ (line +:+ after).

(** A string that [split('T')] cuts into at least two parts. *)
Definition two_parts (s : string) : Prop :=
  exists x y l, String_split "T" s = x :: y :: l.

(** The request of the two ticker tools: the symbol is its only
    parameter. *)
Definition symbol_request (path sym : string) : request :=
  {| url := baseURL +:+ path; params := [("symbol", VStr sym)] |}.

(** The names the capability list announces. *)
Definition registered (n : string) : bool :=
  existsb (String.eqb n) (map tool_name ListTools).

(** A reply text that marks a failure. *)
Definition is_error_text (t : string) : bool := starts_with "Error: " t.

(** A run whose reply, if it returns one, is a text that does not mark a
    failure. *)
Definition plain (m : io ToolResult) : Prop :=
  forall r, outcome m = Normal r ->
            exists t, r = text_result t /\ is_error_text t = false.


(** A source whose HTTP client fails on every request with the message
    [msg]. *)
Definition rejecting_source (msg : string) : DataSource :=
  {| ticker_price := fun _ => Throw (Error msg);
     ticker_24hr := fun _ => Throw (Error msg);
     klines_of := fun _ => Throw (Error msg) |}.

(** A source whose candle endpoint answers [rows] and whose ticker
    endpoints answer the bodies of [Examples]. *)
Definition candle_source (rows : list kline) : DataSource :=
  {| ticker_price := fun _ => Normal Examples.btcusdt_price;
     ticker_24hr := fun _ => Normal Examples.btcusdt_ticker;
     klines_of := fun _ => Normal (Some rows) |}.

(** A series whose second row has an open time beyond the range of
    dates. *)
Definition misdated_rows : list kline :=
  [ [VNum 0; VStr "100"; VStr "110"; VStr "90"; VStr "105"; VStr "10"];
    [VNum 9e15; VStr "105"; VStr "115"; VStr "95"; VStr "110"; VStr "12"] ].

(** Six rows, and six others that differ from them in the first row
    only. *)
Definition flat_row (t : float) (p : string) : kline :=
  [VNum t; VStr p; VStr p; VStr p; VStr p; VStr "1"].

Definition six_rows : list kline :=
  [ flat_row 0 "1"; flat_row 60000 "2"; flat_row 120000 "3"; flat_row 180000 "4";
    flat_row 240000 "5"; flat_row 300000 "6" ].

Definition six_other_rows : list kline :=
  [ flat_row 0 "9"; flat_row 60000 "2"; flat_row 120000 "3"; flat_row 180000 "4";
    flat_row 240000 "5"; flat_row 300000 "6" ].

(* ===================================================================== *)
(** * Properties *)
(* ===================================================================== *)

(** ** Runs *)

Lemma bind_lift_Normal {A B} (a : A) (k : A -> io B) :
  bind (lift (Normal a)) k = k a.
Proof. unfold bind, lift. destruct (k a); reflexivity. Qed.

Lemma bind_lift_Throw {A B} (e : exn) (k : A -> io B) :
  bind (lift (Throw e)) k = throw e.
Proof. reflexivity. Qed.

Lemma silent_ret {A} (a : A) : silent (ret a).
Proof. reflexivity. Qed.

Lemma silent_throw {A} (e : exn) : silent (@throw A e).
Proof. reflexivity. Qed.

Lemma silent_lift {A} (c : completion A) : silent (lift c).
Proof. reflexivity. Qed.

Lemma sent_bind {A B} (m : io A) (k : A -> io B) :
  (forall a, silent (k a)) -> sent (bind m k) = sent m.
Proof.
  intros Hk. destruct m as [s [a|e]]; simpl; [|reflexivity].
  specialize (Hk a). unfold silent, sent in Hk.
  destruct (k a) as [s' r]; simpl in *. subst s'. apply app_nil_r.
Qed.

Lemma silent_bind {A B} (m : io A) (k : A -> io B) :
  silent m -> (forall a, silent (k a)) -> silent (bind m k).
Proof. intros Hm Hk. unfold silent. rewrite sent_bind; assumption. Qed.

Lemma sent_try_catch {A} (m : io A) (h : exn -> io A) :
  (forall e, silent (h e)) -> sent (try_catch m h) = sent m.
Proof.
  intros Hh. destruct m as [s [a|e]]; simpl; [reflexivity|].
  specialize (Hh e). unfold silent, sent in Hh.
  destruct (h e) as [s' r]; simpl in *. subst s'. apply app_nil_r.
Qed.

Lemma sent_axios_get {A B} (f : request -> completion A) (r : request)
      (k : A -> io B) :
  (forall a, silent (k a)) -> sent (bind (axios_get f r) k) = [r].
Proof. intros Hk. rewrite sent_bind; [reflexivity | assumption]. Qed.

Lemma well_shaped_text (t : string) : well_shaped (ret (text_result t)).
Proof. intros r [= <-]. exists t. reflexivity. Qed.

Lemma well_shaped_throw (e : exn) : well_shaped (throw e).
Proof. intros r H. discriminate H. Qed.

Lemma well_shaped_bind {A} (m : io A) (k : A -> io ToolResult) :
  (forall a, well_shaped (k a)) -> well_shaped (bind m k).
Proof.
  intros Hk r. destruct m as [s [a|e]]; simpl; [|discriminate].
  specialize (Hk a r). unfold outcome in *.
  destruct (k a) as [s' c]; simpl in *. exact Hk.
Qed.

Lemma well_shaped_try_catch (m : io ToolResult) (h : exn -> io ToolResult) :
  well_shaped m -> (forall e, well_shaped (h e)) -> well_shaped (try_catch m h).
Proof.
  intros Hm Hh r. destruct m as [s [a|e]]; simpl.
  - intros H. apply (Hm r). exact H.
  - specialize (Hh e r). unfold outcome in *.
    destruct (h e) as [s' c]; simpl in *. exact Hh.
Qed.

(** A handler that rethrows lets only the body's own result through. *)
Lemma outcome_try_rethrow {A} (m : io A) (g : exn -> exn) (a : A) :
  outcome (try_catch m (fun e => throw (g e))) = Normal a -> outcome m = Normal a.
Proof. destruct m as [s [x|e]]; simpl; [exact (fun H => H) | discriminate]. Qed.

Lemma outcome_try_rethrow_Throw {A} (m : io A) (g : exn -> exn) (e : exn) :
  outcome m = Throw e -> outcome (try_catch m (fun e => throw (g e))) = Throw (g e).
Proof. destruct m as [s [x|e']]; simpl; [discriminate | intros [= ->]; reflexivity]. Qed.

Lemma outcome_try_Normal {A} (m : io A) (h : exn -> io A) (a : A) :
  outcome m = Normal a -> outcome (try_catch m h) = Normal a.
Proof. destruct m as [s [x|e]]; simpl; [exact (fun H => H) | discriminate]. Qed.

Lemma outcome_try_Throw {A} (m : io A) (h : exn -> io A) (e : exn) :
  outcome m = Throw e -> outcome (try_catch m h) = outcome (h e).
Proof.
  destruct m as [s [x|e']]; simpl; [discriminate|]. intros [= ->].
  destruct (h e); reflexivity.
Qed.

Lemma outcome_bind_Normal {A B} (m : io A) (k : A -> io B) (b : B) :
  outcome (bind m k) = Normal b ->
  exists a, outcome m = Normal a /\ outcome (k a) = Normal b.
Proof.
  destruct m as [s [a|e]]; simpl; [|discriminate].
  intros H. exists a. split; [reflexivity|]. destruct (k a); exact H.
Qed.

Lemma outcome_bind {A B} (m : io A) (k : A -> io B) (a : A) :
  outcome m = Normal a -> outcome (bind m k) = outcome (k a).
Proof.
  destruct m as [s [x|e]]; simpl; [|discriminate]. intros [= ->].
  destruct (k a); reflexivity.
Qed.

(** A handler that returns lets no exception out. *)
Lemma outcome_try_ret {A} (m : io A) (g : exn -> A) (e : exn) :
  outcome (try_catch m (fun e => ret (g e))) <> Throw e.
Proof. destruct m as [s [x|e']]; simpl; discriminate. Qed.


Ltac shape :=
  repeat first
    [ apply well_shaped_text
    | apply well_shaped_throw
    | apply well_shaped_try_catch
    | apply well_shaped_bind
    | intro ].

Ltac quiet :=
  repeat first
    [ apply silent_ret
    | apply silent_throw
    | apply silent_lift
    | apply silent_bind
    | intro ].

(** ** The handlers, for every host and every data source *)

Section Handlers.

(** [fmt] is the host's [Number.prototype.toLocaleString], [dfmt] its
    [Date.prototype.toLocaleString] and [dparse] its [Date.parse]. *)
Variable upper : string -> string.
Variable fmt : float -> string.
Variable dfmt : option Z -> string.
Variable dparse : string -> float.
Variable src : DataSource.

(** *** Every handler replies with one text item *)

Lemma well_shaped_getCurrentPrice symbol :
  well_shaped (getCurrentPrice upper fmt src symbol).
Proof. unfold getCurrentPrice. shape. Qed.

Lemma well_shaped_get24hrTicker symbol :
  well_shaped (get24hrTicker upper fmt src symbol).
Proof. unfold get24hrTicker. shape. Qed.

Lemma well_shaped_getKlineData symbol interval limit :
  well_shaped (getKlineData upper fmt dfmt dparse src symbol interval limit).
Proof.
  unfold getKlineData. apply well_shaped_try_catch; [|shape].
  apply well_shaped_bind; intros sym.
  apply well_shaped_bind; intros [[|k ks]|]; shape.
Qed.

Lemma well_shaped_getPriceHistory symbol interval limit :
  well_shaped (getPriceHistory upper fmt dparse src symbol interval limit).
Proof.
  unfold getPriceHistory. apply well_shaped_try_catch; [|shape].
  apply well_shaped_bind; intros sym.
  apply well_shaped_bind; intros [[|k ks]|]; shape.
Qed.

(** *** What each handler sends *)

Lemma sent_getCurrentPrice symbol :
  sent (getCurrentPrice upper fmt src symbol) =
  match symbol with
  | VStr s => [ {| url := baseURL +:+ "/ticker/price";
                   params := [("symbol", VStr (String_toUpperCase upper s))] |} ]
  | _ => []
  end.
Proof.
  unfold getCurrentPrice. rewrite sent_try_catch by quiet.
  destruct symbol; try reflexivity.
  unfold call_toUpperCase. rewrite bind_lift_Normal.
  apply sent_axios_get. quiet.
Qed.

Lemma sent_getKlineData symbol interval limit :
  sent (getKlineData upper fmt dfmt dparse src symbol interval limit) =
  match symbol with
  | VStr s => [klines_request (String_toUpperCase upper s) interval limit]
  | _ => []
  end.
Proof.
  unfold getKlineData. rewrite sent_try_catch by quiet.
  destruct symbol; try reflexivity.
  unfold call_toUpperCase. rewrite bind_lift_Normal.
  apply sent_axios_get. intros [[|k ks]|]; quiet.
Qed.

Lemma sent_getPriceHistory symbol interval limit :
  sent (getPriceHistory upper fmt dparse src symbol interval limit) =
  match symbol with
  | VStr s => [klines_request (String_toUpperCase upper s) interval limit]
  | _ => []
  end.
Proof.
  unfold getPriceHistory. rewrite sent_try_catch by quiet.
  destruct symbol; try reflexivity.
  unfold call_toUpperCase. rewrite bind_lift_Normal.
  apply sent_axios_get. intros [[|k ks]|]; quiet.
Qed.

(** *** The dispatch, branch by branch *)

Lemma CallTool_get_kline_data args :
  CallTool upper fmt dfmt dparse src
           {| name := "get_kline_data"; arguments := Some args |} =
  try_catch
    (getKlineData upper fmt dfmt dparse src (prop args "symbol") (prop args "interval")
                  (or_else (prop args "limit") (VNum 100)))
    (fun error => ret (text_result ("Error: " +:+ message error))).
Proof. reflexivity. Qed.

Lemma CallTool_get_price_history args :
  CallTool upper fmt dfmt dparse src
           {| name := "get_price_history"; arguments := Some args |} =
  try_catch
    (getPriceHistory upper fmt dparse src (prop args "symbol") (prop args "interval")
                     (or_else (prop args "limit") (VNum 24)))
    (fun error => ret (text_result ("Error: " +:+ message error))).
Proof. reflexivity. Qed.

Lemma CallTool_get_current_price args :
  CallTool upper fmt dfmt dparse src
           {| name := "get_current_price"; arguments := Some args |} =
  try_catch
    (getCurrentPrice upper fmt src (prop args "symbol"))
    (fun error => ret (text_result ("Error: " +:+ message error))).
Proof. reflexivity. Qed.

Lemma sent_CallTool_get_kline_data args :
  sent (CallTool upper fmt dfmt dparse src
                 {| name := "get_kline_data"; arguments := Some args |}) =
  match prop args "symbol" with
  | VStr s => [klines_request (String_toUpperCase upper s) (prop args "interval")
                              (or_else (prop args "limit") (VNum 100))]
  | _ => []
  end.
Proof.
  rewrite CallTool_get_kline_data, sent_try_catch by quiet.
  apply sent_getKlineData.
Qed.

Lemma sent_CallTool_get_price_history args :
  sent (CallTool upper fmt dfmt dparse src
                 {| name := "get_price_history"; arguments := Some args |}) =
  match prop args "symbol" with
  | VStr s => [klines_request (String_toUpperCase upper s) (prop args "interval")
                              (or_else (prop args "limit") (VNum 24))]
  | _ => []
  end.
Proof.
  rewrite CallTool_get_price_history, sent_try_catch by quiet.
  apply sent_getPriceHistory.
Qed.

(** Whatever a candle tool sends is the one candle request, built from
    the arguments as they came. *)
Lemma sent_candle_tool n args r :
  n = "get_kline_data" \/ n = "get_price_history" ->
  r ∈ sent (CallTool upper fmt dfmt dparse src {| name := n; arguments := Some args |}) ->
  exists s, prop args "symbol" = VStr s /\
    r = klines_request (String_toUpperCase upper s) (prop args "interval")
                       (or_else (prop args "limit") (VNum (default_limit n))).
Proof.
  intros [-> | ->] Hr.
  - rewrite sent_CallTool_get_kline_data in Hr.
    destruct (prop args "symbol") as [| |b|x|s]; try (apply elem_of_nil in Hr; contradiction).
    apply list_elem_of_singleton in Hr. exists s. split; [reflexivity | exact Hr].
  - rewrite sent_CallTool_get_price_history in Hr.
    destruct (prop args "symbol") as [| |b|x|s]; try (apply elem_of_nil in Hr; contradiction).
    apply list_elem_of_singleton in Hr. exists s. split; [reflexivity | exact Hr].
Qed.

Lemma absent_is_falsy (args : gmap string jsval) key :
  args !! key = None -> ToBoolean (prop args key) = false.
Proof. intros H. unfold prop. rewrite H. reflexivity. Qed.

Lemma well_shaped_CallTool request :
  well_shaped (CallTool upper fmt dfmt dparse src request).
Proof.
  destruct request as [n [args|]]; unfold CallTool; cbn [name arguments].
  - apply well_shaped_try_catch; [|shape].
    destruct (String.eqb n "get_current_price"); [apply well_shaped_getCurrentPrice|].
    destruct (String.eqb n "get_24hr_ticker"); [apply well_shaped_get24hrTicker|].
    destruct (String.eqb n "get_kline_data"); [apply well_shaped_getKlineData|].
    destruct (String.eqb n "get_price_history"); [apply well_shaped_getPriceHistory|].
    apply well_shaped_throw.
  - apply well_shaped_throw.
Qed.

(** ** The claims about the dispatch *)

(** C1 (as amended).  A tool invocation whose arguments mapping is absent,
    whatever the tool name, makes the dispatch throw [Error("Missing
    arguments")] before its [try] block is entered: nothing is sent, and
    the error leaves the handler instead of being turned into a text
    reply.  No other error leaves the dispatch. *)
Theorem missing_arguments_throws (request : CallToolRequest) :
  (arguments request = None ->
   CallTool upper fmt dfmt dparse src request = ([], Throw (Error "Missing arguments")))
  /\ (forall e,
        outcome (CallTool upper fmt dfmt dparse src request) = Throw e ->
        arguments request = None /\ e = Error "Missing arguments").
Proof.
  destruct request as [n [args|]]; unfold CallTool; cbn [name arguments]; split.
  - discriminate.
  - intros e H. exfalso. revert H. apply outcome_try_ret.
  - reflexivity.
  - intros e [= <-]. split; reflexivity.
Qed.

(** C9.  With arguments present, a tool name that is none of the four
    registered ones is answered by the text reply
    [Error: Unknown tool: <name>], and nothing is sent. *)
Theorem unknown_tool_is_reported (n : string) (args : gmap string jsval) :
  n <> "get_current_price" ->
  n <> "get_24hr_ticker" ->
  n <> "get_kline_data" ->
  n <> "get_price_history" ->
  CallTool upper fmt dfmt dparse src {| name := n; arguments := Some args |}
  = ([], Normal (text_result ("Error: Unknown tool: " +:+ n))).
Proof.
  intros H1 H2 H3 H4. unfold CallTool; cbn [name arguments].
  apply String.eqb_neq in H1, H2, H3, H4.
  rewrite H1, H2, H3, H4. reflexivity.
Qed.

(** C10.  Every reply the dispatch returns, from a handler that succeeded
    or from an error it caught, holds exactly one content item, and that
    item has type [text]. *)
Theorem every_reply_is_one_text_item (request : CallToolRequest) (r : ToolResult) :
  outcome (CallTool upper fmt dfmt dparse src request) = Normal r ->
  length (content r) = 1%nat /\
  exists t, content r = [ {| type := "text"; text := t |} ].
Proof.
  intros H. apply well_shaped_CallTool in H. destruct H as [t Ht].
  split; [rewrite Ht; reflexivity | exists t; exact Ht].
Qed.

(** C7.  When the [limit] argument is absent or falsy, whatever
    [get_kline_data] sends carries limit 100 and whatever
    [get_price_history] sends carries limit 24. *)
Theorem limit_defaults (args : gmap string jsval) :
  args !! "limit" = None \/ ToBoolean (prop args "limit") = false ->
  (forall r,
      r ∈ sent (CallTool upper fmt dfmt dparse src
                         {| name := "get_kline_data"; arguments := Some args |}) ->
      param "limit" (params r) = VNum 100)
  /\
  (forall r,
      r ∈ sent (CallTool upper fmt dfmt dparse src
                         {| name := "get_price_history"; arguments := Some args |}) ->
      param "limit" (params r) = VNum 24).
Proof.
  intros H.
  assert (Hf : ToBoolean (prop args "limit") = false)
    by (destruct H; [apply absent_is_falsy|]; assumption).
  split; intros r Hr; apply sent_candle_tool in Hr; auto;
    destruct Hr as (s & _ & ->); unfold or_else; rewrite Hf; reflexivity.
Qed.

(** C2 (as amended).  The limit of the outbound candle request is the
    supplied [limit] argument itself when that is truthy and the default
    otherwise; nothing clamps it.  So it lies in [1, 1000] whenever the
    supplied limit is absent, falsy or itself within these bounds, the
    ones the input schema declares. *)
Theorem limit_is_sent_as_supplied (n : string) (args : gmap string jsval) (r : request) :
  n = "get_kline_data" \/ n = "get_price_history" ->
  r ∈ sent (CallTool upper fmt dfmt dparse src {| name := n; arguments := Some args |}) ->
  param "limit" (params r) = or_else (prop args "limit") (VNum (default_limit n))
  /\ (ToBoolean (prop args "limit") = true ->
      param "limit" (params r) = prop args "limit")
  /\ (ToBoolean (prop args "limit") = false
      \/ limit_in_bounds (prop args "limit") = true ->
      limit_in_bounds (param "limit" (params r)) = true).
Proof.
  intros Hn Hr. destruct (sent_candle_tool _ _ _ Hn Hr) as (s & _ & ->).
  change (param "limit" (params (klines_request ?a ?b ?c))) with c.
  unfold or_else. split; [reflexivity|]. split.
  - intros ->. reflexivity.
  - destruct (ToBoolean (prop args "limit")) eqn:Hb.
    + intros [H|H]; [discriminate H | exact H].
    + intros _. destruct Hn as [-> | ->]; reflexivity.
Qed.

(** C3 (as amended).  The interval of the outbound candle request is the
    supplied [interval] argument, unchecked; it is one of the enumerated
    set whenever the supplied interval is. *)
Theorem interval_is_sent_as_supplied (n : string) (args : gmap string jsval)
        (r : request) :
  n = "get_kline_data" \/ n = "get_price_history" ->
  r ∈ sent (CallTool upper fmt dfmt dparse src {| name := n; arguments := Some args |}) ->
  param "interval" (params r) = prop args "interval"
  /\ (interval_in_enum (prop args "interval") = true ->
      interval_in_enum (param "interval" (params r)) = true).
Proof.
  intros Hn Hr. destruct (sent_candle_tool _ _ _ Hn Hr) as (s & _ & ->).
  change (param "interval" (params (klines_request ?a ?b ?c))) with b.
  split; [reflexivity | exact (fun H => H)].
Qed.

(** *** Empty series *)

Lemma getKlineData_nonempty symbol interval limit r :
  outcome (getKlineData upper fmt dfmt dparse src symbol interval limit) = Normal r ->
  exists s k ks,
    symbol = VStr s /\
    klines_of src (klines_request (String_toUpperCase upper s) interval limit)
    = Normal (Some (k :: ks)).
Proof.
  unfold getKlineData. intros H.
  apply outcome_try_rethrow with (g := fun e => Error (_ +:+ message e)) in H.
  apply outcome_bind_Normal in H. destruct H as (sym & Hsym & H).
  destruct symbol as [| |b|x|s]; try discriminate Hsym.
  injection Hsym as <-.
  apply outcome_bind_Normal in H. destruct H as (body & Hbody & H).
  exists s. destruct body as [[|k ks]|]; try discriminate H.
  exists k, ks. split; [reflexivity | exact Hbody].
Qed.

Lemma getPriceHistory_nonempty symbol interval limit r :
  outcome (getPriceHistory upper fmt dparse src symbol interval limit) = Normal r ->
  exists s k ks,
    symbol = VStr s /\
    klines_of src (klines_request (String_toUpperCase upper s) interval limit)
    = Normal (Some (k :: ks)).
Proof.
  unfold getPriceHistory. intros H.
  apply outcome_try_rethrow with (g := fun e => Error (_ +:+ message e)) in H.
  apply outcome_bind_Normal in H. destruct H as (sym & Hsym & H).
  destruct symbol as [| |b|x|s]; try discriminate Hsym.
  injection Hsym as <-.
  apply outcome_bind_Normal in H. destruct H as (body & Hbody & H).
  exists s. destruct body as [[|k ks]|]; try discriminate H.
  exists k, ks. split; [reflexivity | exact Hbody].
Qed.

Lemma getKlineData_empty s interval limit :
  klines_of src (klines_request (String_toUpperCase upper s) interval limit)
  = Normal (Some []) ->
  outcome (getKlineData upper fmt dfmt dparse src (VStr s) interval limit)
  = Throw (Error "Failed to fetch kline data: No kline data received").
Proof.
  intros H. unfold getKlineData.
  apply outcome_try_rethrow_Throw
    with (g := fun e => Error ("Failed to fetch kline data: " +:+ message e))
         (e := Error "No kline data received").
  unfold call_toUpperCase. rewrite bind_lift_Normal.
  etransitivity; [apply outcome_bind; exact H | reflexivity].
Qed.

Lemma getPriceHistory_empty s interval limit :
  klines_of src (klines_request (String_toUpperCase upper s) interval limit)
  = Normal (Some []) ->
  outcome (getPriceHistory upper fmt dparse src (VStr s) interval limit)
  = Throw (Error "Failed to fetch price history: No historical data received").
Proof.
  intros H. unfold getPriceHistory.
  apply outcome_try_rethrow_Throw
    with (g := fun e => Error ("Failed to fetch price history: " +:+ message e))
         (e := Error "No historical data received").
  unfold call_toUpperCase. rewrite bind_lift_Normal.
  etransitivity; [apply outcome_bind; exact H | reflexivity].
Qed.

(** C6.  An empty series from the data source is a failure:
    [get_kline_data] then answers
    [Error: Failed to fetch kline data: No kline data received] and
    [get_price_history] fails with [No historical data received], wrapped
    the same way; and a handler that returns normally got a series with
    at least one candle. *)
Theorem empty_series_is_a_failure :
  (forall (args : gmap string jsval) s,
      prop args "symbol" = VStr s ->
      (klines_of src (klines_request (String_toUpperCase upper s) (prop args "interval")
                                     (or_else (prop args "limit") (VNum 100)))
       = Normal (Some []) ->
       outcome (CallTool upper fmt dfmt dparse src
                         {| name := "get_kline_data"; arguments := Some args |})
       = Normal (text_result
                   "Error: Failed to fetch kline data: No kline data received"))
      /\
      (klines_of src (klines_request (String_toUpperCase upper s) (prop args "interval")
                                     (or_else (prop args "limit") (VNum 24)))
       = Normal (Some []) ->
       outcome (CallTool upper fmt dfmt dparse src
                         {| name := "get_price_history"; arguments := Some args |})
       = Normal (text_result
                   "Error: Failed to fetch price history: No historical data received")))
  /\
  (forall symbol interval limit r,
      outcome (getKlineData upper fmt dfmt dparse src symbol interval limit) = Normal r ->
      exists s k ks,
        symbol = VStr s /\
        klines_of src (klines_request (String_toUpperCase upper s) interval limit)
        = Normal (Some (k :: ks)))
  /\
  (forall symbol interval limit r,
      outcome (getPriceHistory upper fmt dparse src symbol interval limit) = Normal r ->
      exists s k ks,
        symbol = VStr s /\
        klines_of src (klines_request (String_toUpperCase upper s) interval limit)
        = Normal (Some (k :: ks))).
Proof.
  split; [|split].
  - intros args s Hs. split; intros H.
    + rewrite CallTool_get_kline_data, Hs.
      rewrite (outcome_try_Throw _ _ _ (getKlineData_empty _ _ _ H)). reflexivity.
    + rewrite CallTool_get_price_history, Hs.
      rewrite (outcome_try_Throw _ _ _ (getPriceHistory_empty _ _ _ H)). reflexivity.
  - apply getKlineData_nonempty.
  - apply getPriceHistory_nonempty.
Qed.

End Handlers.

(** ** What the schemas declare *)

Lemma four_tools :
  map tool_name ListTools
  = ["get_current_price"; "get_24hr_ticker"; "get_kline_data"; "get_price_history"].
Proof. reflexivity. Qed.

Lemma declared_limit_bounds :
  (p_minimum <$> declared "get_kline_data" "limit") = Some (Some 1)
  /\ (p_maximum <$> declared "get_kline_data" "limit") = Some (Some 1000)
  /\ (p_minimum <$> declared "get_price_history" "limit") = Some (Some 1)
  /\ (p_maximum <$> declared "get_price_history" "limit") = Some (Some 1000).
Proof. repeat split. Qed.

Lemma declared_interval_enum :
  (p_enum <$> declared "get_kline_data" "interval") = Some (Some interval_enum)
  /\ (p_enum <$> declared "get_price_history" "interval") = Some None.
Proof. split; reflexivity. Qed.

(** ** Upper case *)

Lemma upper_char_not_lower (c : ascii) : is_lower (upper_char c) = false.
Proof. destruct c as [[] [] [] [] [] [] [] []]; reflexivity. Qed.

Lemma upper_char_ascii (c : ascii) :
  Nat.ltb (nat_of_ascii c) 128 = true ->
  Nat.ltb (nat_of_ascii (upper_char c)) 128 = true.
Proof. destruct c as [[] [] [] [] [] [] [] []]; intros H; (exact H || reflexivity). Qed.

Lemma ascii_toUpperCase_no_lower_case (s : string) :
  no_lower_case (ascii_toUpperCase s) = true.
Proof.
  induction s as [|c r IH]; [reflexivity|].
  simpl. rewrite upper_char_not_lower, IH. reflexivity.
Qed.

Lemma ascii_toUpperCase_is_ascii (s : string) :
  is_ascii s = true -> is_ascii (ascii_toUpperCase s) = true.
Proof.
  induction s as [|c r IH]; [reflexivity|].
  simpl. intros H. apply andb_true_iff in H. destruct H as [Hc Hr].
  rewrite (upper_char_ascii c Hc), (IH Hr). reflexivity.
Qed.

(** On ASCII text [toUpperCase] does not depend on the host. *)
Lemma String_toUpperCase_ascii (upper : string -> string) (s : string) :
  is_ascii s = true -> String_toUpperCase upper s = ascii_toUpperCase s.
Proof. intros H. unfold String_toUpperCase. rewrite H. reflexivity. Qed.

Lemma String_toUpperCase_no_lower_case (upper : string -> string) (s : string) :
  is_ascii s = true ->
  is_ascii (String_toUpperCase upper s) = true
  /\ no_lower_case (String_toUpperCase upper s) = true.
Proof.
  intros H. rewrite (String_toUpperCase_ascii upper s H).
  split; [apply ascii_toUpperCase_is_ascii; exact H
         | apply ascii_toUpperCase_no_lower_case].
Qed.

(** ** The claims about single tools *)

(** C8.  [get_current_price] sends the symbol in upper case: the request
    carries [symbol.toUpperCase()], on every host; for an ASCII symbol
    that is the symbol with [a]-[z] turned into [A]-[Z], an ASCII text in
    which no lower-case letter is left, and [btcusdt] goes out as
    [BTCUSDT].  When the source answers a body, the reply is [Current price
    for <its symbol>: $<its price, parsed and printed by the host's
    toLocaleString()>]; an [en-US] host prints with grouped thousands, so
    that for [{symbol: "BTCUSDT", price: "65000.5"}] the reply is [Current
    price for BTCUSDT: $65,000.5]. *)
Theorem current_price_request_and_reply :
  (forall upper fmt dfmt dparse src (args : gmap string jsval) s,
      prop args "symbol" = VStr s ->
      sent (CallTool upper fmt dfmt dparse src
                     {| name := "get_current_price"; arguments := Some args |})
      = [ {| url := "https://api.binance.com/api/v3/ticker/price";
             params := [("symbol", VStr (String_toUpperCase upper s))] |} ]
      /\ (is_ascii s = true ->
          String_toUpperCase upper s = ascii_toUpperCase s
          /\ is_ascii (String_toUpperCase upper s) = true
          /\ no_lower_case (String_toUpperCase upper s) = true))
  /\ (forall upper, String_toUpperCase upper "btcusdt" = "BTCUSDT")
  /\ (forall upper fmt dfmt dparse src (args : gmap string jsval) s data,
         prop args "symbol" = VStr s ->
         ticker_price src {| url := "https://api.binance.com/api/v3/ticker/price";
                             params := [("symbol", VStr (String_toUpperCase upper s))] |}
         = Normal data ->
         outcome (CallTool upper fmt dfmt dparse src
                           {| name := "get_current_price"; arguments := Some args |})
         = Normal (text_result
                     ("Current price for " +:+ Price.symbol data +:+ ": $"
                      +:+ fmt (parseFloat_string (Price.price data)))))
  /\ (en_US.Number_toLocaleString (parseFloat_string "65000.5") = "65,000.5"
      /\ en_US.Number_toLocaleString (parseFloat_string "999.5") = "999.5"
      /\ en_US.Number_toLocaleString (parseFloat_string "1234567.891") = "1,234,567.891"
      /\ en_US.Number_toLocaleString (parseFloat_string "0.00001234") = "0"
      /\ en_US.Number_toLocaleString (parseFloat_string "1.00050000") = "1.001"
      /\ en_US.Number_toLocaleString (parseFloat_string "1e25")
         = "10,000,000,000,000,000,000,000,000")
  /\ (forall upper dfmt dparse src (args : gmap string jsval),
         prop args "symbol" = VStr "btcusdt" ->
         ticker_price src {| url := "https://api.binance.com/api/v3/ticker/price";
                             params := [("symbol", VStr "BTCUSDT")] |}
         = Normal {| Price.symbol := "BTCUSDT"; Price.price := "65000.5" |} ->
         outcome (CallTool upper en_US.Number_toLocaleString dfmt dparse src
                           {| name := "get_current_price"; arguments := Some args |})
         = Normal (text_result "Current price for BTCUSDT: $65,000.5")).
Proof.
  assert (Hreply : forall upper fmt dfmt dparse src (args : gmap string jsval) s data,
             prop args "symbol" = VStr s ->
             ticker_price src
               {| url := "https://api.binance.com/api/v3/ticker/price";
                  params := [("symbol", VStr (String_toUpperCase upper s))] |}
             = Normal data ->
             outcome (CallTool upper fmt dfmt dparse src
                        {| name := "get_current_price"; arguments := Some args |})
             = Normal (text_result
                         ("Current price for " +:+ Price.symbol data +:+ ": $"
                          +:+ fmt (parseFloat_string (Price.price data))))).
  { intros upper fmt dfmt dparse src args s data Hs Hsrc.
    rewrite CallTool_get_current_price, Hs.
    apply outcome_try_Normal. unfold getCurrentPrice.
    apply outcome_try_Normal. unfold call_toUpperCase.
    rewrite bind_lift_Normal.
    etransitivity; [apply outcome_bind; exact Hsrc | reflexivity]. }
  split; [|split; [|split; [|split]]].
  - intros upper fmt dfmt dparse src args s Hs. split.
    + rewrite CallTool_get_current_price, sent_try_catch by quiet.
      rewrite sent_getCurrentPrice, Hs. reflexivity.
    + intros Ha. split; [apply String_toUpperCase_ascii; exact Ha|].
      apply String_toUpperCase_no_lower_case. exact Ha.
  - reflexivity.
  - exact Hreply.
  - repeat split; vm_compute; reflexivity.
  - intros upper dfmt dparse src args Hs Hsrc.
    exact (Hreply upper en_US.Number_toLocaleString dfmt dparse src args "btcusdt"
                  {| Price.symbol := "BTCUSDT"; Price.price := "65000.5" |} Hs Hsrc).
Qed.

(** C4 (the code departs from it).  The label printed after the 24h volume
    is the symbol after removing the first occurrence of [USDT], of [BUSD],
    of [BTC] and of [ETH], in this order and wherever they stand.  For
    [BTCUSDT] and [ETHUSDT] nothing is left of the base asset; a quote
    asset outside the four stays, and so [BTCEUR] is labelled [EUR]. *)
Theorem asset_label_drops_the_base_asset :
  asset_label "BTCUSDT" = ""
  /\ asset_label "ETHUSDT" = ""
  /\ asset_label "ADAUSDT" = "ADA"
  /\ asset_label "BTCEUR" = "EUR"
  /\ outcome (Examples.call Examples.mock "get_24hr_ticker"
                            (Some {[ "symbol" := VStr "BTCUSDT" ]}))
     = Normal (text_result
                 ("📊 BTCUSDT - 24hr Statistics:" +:+ nl
                  +:+ "            " +:+ nl
                  +:+ "💰 Current Price: $65,000.5" +:+ nl
                  +:+ "📈 24h Change: $-95.0000 (-0.15%)" +:+ nl
                  +:+ "🔼 24h High: $66,100" +:+ nl
                  +:+ "🔽 24h Low: $64,200.25" +:+ nl
                  +:+ "📊 24h Volume: 12,345.678 " +:+ nl
                  +:+ "💵 Quote Volume: $802,469,135.8")).
Proof. repeat split; vm_compute; reflexivity. Qed.

(** ** The claims at concrete invocations *)

(** C1, refuted as stated: with the arguments absent the dispatch returns
    no reply at all, so none with the text [Error: Missing arguments]. *)
Lemma missing_arguments_is_no_text_reply :
  ~ exists r,
      outcome (Examples.call Examples.mock "get_current_price" None) = Normal r
      /\ content r = [ {| type := "text"; text := "Error: Missing arguments" |} ].
Proof. intros (r & H & _). discriminate H. Qed.

(** C2, refuted as stated: a supplied limit of 5000 is sent as it is. *)
Lemma limit_5000_is_not_clamped :
  ~ forall r,
      r ∈ sent (Examples.call Examples.mock "get_kline_data"
                  (Some {[ "symbol" := VStr "BTCUSDT"; "interval" := VStr "1h";
                           "limit" := VNum 5000 ]})) ->
      limit_in_bounds (param "limit" (params r)) = true.
Proof.
  intros H.
  specialize (H (klines_request "BTCUSDT" (VStr "1h") (VNum 5000))).
  assert (Hin : klines_request "BTCUSDT" (VStr "1h") (VNum 5000)
                ∈ sent (Examples.call Examples.mock "get_kline_data"
                          (Some {[ "symbol" := VStr "BTCUSDT"; "interval" := VStr "1h";
                                   "limit" := VNum 5000 ]})))
    by (vm_compute; left).
  apply H in Hin. discriminate Hin.
Qed.

(** C3, refuted as stated: the interval [7m], outside the enumerated set,
    is passed to the data source. *)
Lemma interval_7m_is_passed_on :
  ~ forall r,
      r ∈ sent (Examples.call Examples.mock "get_kline_data"
                  (Some {[ "symbol" := VStr "BTCUSDT"; "interval" := VStr "7m" ]})) ->
      interval_in_enum (param "interval" (params r)) = true.
Proof.
  intros H.
  specialize (H (klines_request "BTCUSDT" (VStr "7m") (VNum 100))).
  assert (Hin : klines_request "BTCUSDT" (VStr "7m") (VNum 100)
                ∈ sent (Examples.call Examples.mock "get_kline_data"
                          (Some {[ "symbol" := VStr "BTCUSDT"; "interval" := VStr "7m" ]})))
    by (vm_compute; left).
  apply H in Hin. discriminate Hin.
Qed.

(** C1 (as amended) at a price query without arguments. *)
Lemma missing_arguments_throws_witness :
  arguments {| name := "get_current_price"; arguments := None |} = None
  /\ Examples.call Examples.mock "get_current_price" None
     = ([], Throw (Error "Missing arguments")).
Proof.
  split; [reflexivity|].
  apply (proj1 (missing_arguments_throws Examples.Unicode_toUpperCase en_US.Number_toLocaleString
                  Examples.Date_toLocaleString Examples.Date_parse Examples.mock
                  {| name := "get_current_price"; arguments := None |})).
  reflexivity.
Defined.

(** C9 at the unregistered name [get_balance]. *)
Lemma unknown_tool_is_reported_witness :
  ("get_balance" <> "get_current_price" /\ "get_balance" <> "get_24hr_ticker"
   /\ "get_balance" <> "get_kline_data" /\ "get_balance" <> "get_price_history")
  /\ Examples.call Examples.mock "get_balance" (Some ∅)
     = ([], Normal (text_result "Error: Unknown tool: get_balance")).
Proof.
  split; [repeat split; discriminate|].
  apply (unknown_tool_is_reported Examples.Unicode_toUpperCase en_US.Number_toLocaleString
           Examples.Date_toLocaleString Examples.Date_parse Examples.mock
           "get_balance" ∅); discriminate.
Defined.

(** C10 at a successful price query. *)
Lemma every_reply_is_one_text_item_witness :
  outcome (Examples.call Examples.mock "get_current_price"
                         (Some {[ "symbol" := VStr "btcusdt" ]}))
  = Normal (text_result "Current price for BTCUSDT: $65,000.5")
  /\ (length (content (text_result "Current price for BTCUSDT: $65,000.5")) = 1%nat
      /\ exists t, content (text_result "Current price for BTCUSDT: $65,000.5")
                   = [ {| type := "text"; text := t |} ]).
Proof.
  split; [vm_compute; reflexivity|].
  apply (every_reply_is_one_text_item Examples.Unicode_toUpperCase en_US.Number_toLocaleString
           Examples.Date_toLocaleString Examples.Date_parse Examples.mock
           {| name := "get_current_price";
              arguments := Some {[ "symbol" := VStr "btcusdt" ]} |}).
  vm_compute; reflexivity.
Defined.

(** C7 at an invocation without [limit]. *)
Lemma limit_defaults_witness :
  let args : gmap string jsval :=
    {[ "symbol" := VStr "btcusdt"; "interval" := VStr "1h" ]} in
  args !! "limit" = None
  /\ klines_request "BTCUSDT" (VStr "1h") (VNum 100)
     ∈ sent (Examples.call Examples.mock "get_kline_data" (Some args))
  /\ param "limit" (params (klines_request "BTCUSDT" (VStr "1h") (VNum 100))) = VNum 100
  /\ klines_request "BTCUSDT" (VStr "1h") (VNum 24)
     ∈ sent (Examples.call Examples.mock "get_price_history" (Some args))
  /\ param "limit" (params (klines_request "BTCUSDT" (VStr "1h") (VNum 24))) = VNum 24.
Proof.
  intros args.
  assert (Habsent : args !! "limit" = None) by (vm_compute; reflexivity).
  assert (Hk : klines_request "BTCUSDT" (VStr "1h") (VNum 100)
               ∈ sent (Examples.call Examples.mock "get_kline_data" (Some args)))
    by (vm_compute; left).
  assert (Hh : klines_request "BTCUSDT" (VStr "1h") (VNum 24)
               ∈ sent (Examples.call Examples.mock "get_price_history" (Some args)))
    by (vm_compute; left).
  destruct (limit_defaults Examples.Unicode_toUpperCase
        en_US.Number_toLocaleString Examples.Date_toLocaleString
              Examples.Date_parse Examples.mock args (or_introl Habsent))
    as [Dk Dh].
  exact (conj Habsent (conj Hk (conj (Dk _ Hk) (conj Hh (Dh _ Hh))))).
Defined.

(** C2 (as amended) at a supplied limit of 250. *)
Lemma limit_is_sent_as_supplied_witness :
  let args : gmap string jsval :=
    {[ "symbol" := VStr "btcusdt"; "interval" := VStr "1h"; "limit" := VNum 250 ]} in
  let r := klines_request "BTCUSDT" (VStr "1h") (VNum 250) in
  r ∈ sent (Examples.call Examples.mock "get_price_history" (Some args))
  /\ limit_in_bounds (prop args "limit") = true
  /\ param "limit" (params r) = VNum 250
  /\ limit_in_bounds (param "limit" (params r)) = true.
Proof.
  intros args r.
  assert (Hr : r ∈ sent (Examples.call Examples.mock "get_price_history" (Some args)))
    by (vm_compute; left).
  assert (Hb : limit_in_bounds (prop args "limit") = true) by (vm_compute; reflexivity).
  destruct (limit_is_sent_as_supplied Examples.Unicode_toUpperCase en_US.Number_toLocaleString
              Examples.Date_toLocaleString Examples.Date_parse Examples.mock
              "get_price_history" args r (or_intror eq_refl) Hr)
    as (_ & Hsame & Hin).
  refine (conj Hr (conj Hb (conj _ (Hin (or_intror Hb))))).
  rewrite Hsame; reflexivity.
Defined.

(** C3 (as amended) at the interval [1h]. *)
Lemma interval_is_sent_as_supplied_witness :
  let args : gmap string jsval :=
    {[ "symbol" := VStr "btcusdt"; "interval" := VStr "1h" ]} in
  let r := klines_request "BTCUSDT" (VStr "1h") (VNum 100) in
  r ∈ sent (Examples.call Examples.mock "get_kline_data" (Some args))
  /\ interval_in_enum (prop args "interval") = true
  /\ param "interval" (params r) = prop args "interval"
  /\ interval_in_enum (param "interval" (params r)) = true.
Proof.
  intros args r.
  assert (Hr : r ∈ sent (Examples.call Examples.mock "get_kline_data" (Some args)))
    by (vm_compute; left).
  assert (He : interval_in_enum (prop args "interval") = true)
    by (vm_compute; reflexivity).
  destruct (interval_is_sent_as_supplied Examples.Unicode_toUpperCase en_US.Number_toLocaleString
              Examples.Date_toLocaleString Examples.Date_parse Examples.mock
              "get_kline_data" args r (or_introl eq_refl) Hr)
    as (Hsame & Hin).
  exact (conj Hr (conj He (conj Hsame (Hin He)))).
Defined.

(** C6 at a source that answers [[]], and at one that answers two
    candles. *)
Lemma empty_series_is_a_failure_witness :
  let args : gmap string jsval :=
    {[ "symbol" := VStr "btcusdt"; "interval" := VStr "1h" ]} in
  (outcome (Examples.call Examples.empty_source "get_kline_data" (Some args))
   = Normal (text_result "Error: Failed to fetch kline data: No kline data received")
   /\ outcome (Examples.call Examples.empty_source "get_price_history" (Some args))
      = Normal (text_result
                  "Error: Failed to fetch price history: No historical data received"))
  /\ exists r s k ks,
      outcome (getKlineData Examples.Unicode_toUpperCase
            en_US.Number_toLocaleString Examples.Date_toLocaleString
                            Examples.Date_parse Examples.mock
                            (VStr "btcusdt") (VStr "1h") (VNum 100)) = Normal r
      /\ VStr "btcusdt" = VStr s
      /\ klines_of Examples.mock (klines_request (String_toUpperCase Examples.Unicode_toUpperCase s) (VStr "1h") (VNum 100))
         = Normal (Some (k :: ks)).
Proof.
  intros args.
  destruct (empty_series_is_a_failure Examples.Unicode_toUpperCase en_US.Number_toLocaleString
              Examples.Date_toLocaleString Examples.Date_parse Examples.empty_source)
    as (Hempty & _ & _).
  destruct (Hempty args "btcusdt" eq_refl) as [Hk Hh].
  destruct (empty_series_is_a_failure Examples.Unicode_toUpperCase en_US.Number_toLocaleString
              Examples.Date_toLocaleString Examples.Date_parse Examples.mock)
    as (_ & Hsome & _).
  split; [split; [exact (Hk eq_refl) | exact (Hh eq_refl)]|].
  eexists.
  assert (Hrun : outcome (getKlineData Examples.Unicode_toUpperCase en_US.Number_toLocaleString
                            Examples.Date_toLocaleString Examples.Date_parse Examples.mock
                            (VStr "btcusdt") (VStr "1h") (VNum 100)) = Normal _)
    by (vm_compute; reflexivity).
  destruct (Hsome _ _ _ _ Hrun) as (s & k & ks & Hs & Hsrc).
  exists s, k, ks. split; [exact Hrun | split; [exact Hs | exact Hsrc]].
Defined.

(** C8 at [btcusdt] and the mocked price. *)
Lemma current_price_request_and_reply_witness :
  let args : gmap string jsval := {[ "symbol" := VStr "btcusdt" ]} in
  prop args "symbol" = VStr "btcusdt"
  /\ is_ascii "btcusdt" = true
  /\ sent (Examples.call Examples.mock "get_current_price" (Some args))
     = [ {| url := "https://api.binance.com/api/v3/ticker/price";
            params := [("symbol", VStr "BTCUSDT")] |} ]
  /\ no_lower_case (String_toUpperCase Examples.Unicode_toUpperCase "btcusdt") = true
  /\ outcome (Examples.call Examples.mock "get_current_price" (Some args))
     = Normal (text_result "Current price for BTCUSDT: $65,000.5").
Proof.
  intros args.
  destruct current_price_request_and_reply as (Hsent & _ & _ & _ & Hreply).
  assert (Hs : prop args "symbol" = VStr "btcusdt") by (vm_compute; reflexivity).
  destruct (Hsent Examples.Unicode_toUpperCase en_US.Number_toLocaleString
                  Examples.Date_toLocaleString Examples.Date_parse Examples.mock
                  args "btcusdt" Hs) as [Hreq Hascii].
  destruct (Hascii eq_refl) as (_ & _ & Hupper).
  exact (conj Hs (conj eq_refl (conj Hreq (conj Hupper
           (Hreply Examples.Unicode_toUpperCase Examples.Date_toLocaleString
                   Examples.Date_parse Examples.mock args Hs eq_refl))))).
Defined.


(** ** Price history *)

Lemma append_assoc (a b c : string) : (a +:+ b) +:+ c = a +:+ (b +:+ c).
Proof.
  induction a as [|x a IH]; [reflexivity|].
  change (String x ((a +:+ b) +:+ c) = String x (a +:+ (b +:+ c))).
  f_equal. exact IH.
Qed.

Lemma reports_skip (a line text : string) :
  reports line text -> reports line (a +:+ text).
Proof.
  intros (before & after & ->). exists (a +:+ before), after.
  symmetry. apply append_assoc.
Qed.

Lemma String_split_nonempty (sep : ascii) (s : string) : String_split sep s <> [].
Proof.
  induction s as [|c r IH]; simpl; [discriminate|].
  destruct (Ascii.eqb c sep); [discriminate|].
  destruct (String_split sep r); discriminate.
Qed.

Lemma two_parts_T (b : string) : two_parts (String "T" b).
Proof.
  unfold two_parts. simpl.
  destruct (String_split "T" b) as [|y l] eqn:E.
  - exfalso. exact (String_split_nonempty _ _ E).
  - exists "", y, l. reflexivity.
Qed.

Lemma two_parts_cons (c : ascii) (s : string) : two_parts s -> two_parts (String c s).
Proof.
  intros (x & y & l & H). unfold two_parts. simpl. rewrite H.
  destruct (Ascii.eqb c "T"); eauto.
Qed.

Lemma two_parts_app (a b : string) : two_parts b -> two_parts (a +:+ b).
Proof.
  intros H. induction a as [|c a IH]; [exact H|].
  simpl. apply two_parts_cons. exact IH.
Qed.

Lemma time_part_Normal (s : string) : two_parts s -> exists t, time_part s = Normal t.
Proof. intros (x & y & l & H). unfold time_part. rewrite H. simpl. eauto. Qed.

Lemma Date_toISOString_two_parts (d : option Z) (ts : string) :
  Date_toISOString d = Normal ts -> two_parts ts.
Proof.
  destruct d as [tv|]; [|discriminate]. unfold Date_toISOString.
  destruct (civil_from_days (tv / 86400000)) as [[y m] dd].
  intros [= <-]. do 5 apply two_parts_app. apply two_parts_T.
Qed.

Lemma Array_map_Normal {A B} (f : A -> completion B) (l : list A) :
  Forall (fun x => exists y, f x = Normal y) l -> exists ys, Array_map f l = Normal ys.
Proof.
  induction 1 as [|x r [y Hy] _ [ys Hys]]; simpl; [eauto|].
  rewrite Hy. simpl. rewrite Hys. simpl. eauto.
Qed.

(** [map] with the index: the result has the length of the input and its
    entry [j] is the callback's value at [(l[j], i + j)]. *)
Lemma Array_mapi_from_Normal {A B} (f : A -> nat -> completion B) (l : list A) (i : nat) :
  (forall j x, l !! j = Some x -> exists y, f x (i + j)%nat = Normal y) ->
  exists ys,
    Array_mapi_from i f l = Normal ys
    /\ length ys = length l
    /\ forall j y, ys !! j = Some y ->
                   exists x, l !! j = Some x /\ f x (i + j)%nat = Normal y.
Proof.
  revert i. induction l as [|x r IH]; intros i Hf.
  - exists []. repeat split. intros j y H. rewrite lookup_nil in H. discriminate H.
  - destruct (Hf 0%nat x eq_refl) as [y Hy]. rewrite Nat.add_0_r in Hy.
    destruct (IH (S i)) as (ys & Hys & Hlen & Hlook).
    { intros j x' Hj. destruct (Hf (S j) x' Hj) as [y' Hy'].
      exists y'. rewrite <- Hy'. f_equal. lia. }
    exists (y :: ys). simpl. rewrite Hy. simpl. rewrite Hys. simpl.
    split; [reflexivity|]. split; [rewrite Hlen; reflexivity|].
    intros [|j] y' H; simpl in H.
    + injection H as <-. exists x. split; [reflexivity|].
      rewrite Nat.add_0_r. exact Hy.
    + destruct (Hlook j y' H) as (x' & Hx' & Hfx').
      exists x'. split; [exact Hx'|]. rewrite <- Hfx'. f_equal. lia.
Qed.

Section History.

Variable dparse : string -> float.

(** What the callback of [klines.map] builds for a dated row. *)
Lemma parse_period_dated (klines : list kline) (k : kline) (i : nat) :
  dated dparse k ->
  exists ts,
    Date_toISOString (Date_new dparse (cell k 0)) = Normal ts
    /\ parse_period dparse klines k i
       = Normal {| Period.period := i + 1;
                   Period.timestamp := ts;
                   Period.open := parseFloat (cell k 1);
                   Period.high := parseFloat (cell k 2);
                   Period.low := parseFloat (cell k 3);
                   Period.close := parseFloat (cell k 4);
                   Period.volume := parseFloat (cell k 5);
                   Period.change :=
                     if (0 <? i)%nat then
                       ((parseFloat (cell k 4)
                         - parseFloat (cell (nth (i - 1) klines []) 4))
                        / parseFloat (cell (nth (i - 1) klines []) 4) * 100)%float
                     else 0%float |}.
Proof.
  intros [tv Htv]. unfold parse_period. rewrite Htv.
  unfold Date_toISOString.
  destruct (civil_from_days (tv / 86400000)) as [[y m] dd].
  eexists. split; reflexivity.
Qed.

(** The series [getPriceHistory] builds from dated rows. *)
Lemma historicalData_dated (klines : list kline) :
  Forall (dated dparse) klines ->
  exists hist,
    historicalData dparse klines = Normal hist
    /\ length hist = length klines
    /\ forall i d, hist !! i = Some d ->
         Period.period d = (i + 1)%nat
         /\ Period.open d = open_of klines i
         /\ Period.close d = close_of klines i
         /\ Period.change d = spec_change klines i
         /\ two_parts (Period.timestamp d).
Proof.
  intros Hd. unfold historicalData, Array_mapi.
  destruct (Array_mapi_from_Normal (parse_period dparse klines) klines 0)
    as (hist & Hhist & Hlen & Hlook).
  { intros j x Hj.
    destruct (parse_period_dated klines x (0 + j) (Forall_lookup_1 _ _ _ _ Hd Hj))
      as (ts & _ & Hp).
    eexists. exact Hp. }
  exists hist. split; [exact Hhist|]. split; [exact Hlen|].
  intros i d Hi. destruct (Hlook i d Hi) as (x & Hx & Hp). simpl in Hp.
  destruct (parse_period_dated klines x i (Forall_lookup_1 _ _ _ _ Hd Hx))
    as (ts & Hts & Hq).
  rewrite Hq in Hp. injection Hp as <-. cbn [Period.period Period.open Period.close
    Period.change Period.timestamp].
  unfold open_of, close_of, spec_change.
  rewrite (@nth_lookup_Some kline klines i [] x Hx).
  split; [reflexivity|]. split; [reflexivity|]. split; [reflexivity|].
  split; [|exact (Date_toISOString_two_parts _ _ Hts)].
  destruct i as [|j]; [reflexivity|].
  unfold close_of. rewrite (@nth_lookup_Some kline klines (S j) [] x Hx).
  cbn [Nat.ltb Nat.leb]. replace (S j - 1)%nat with j by lia. reflexivity.
Qed.

End History.

Lemma reports_prefix (a b c d after : string) :
  reports (a +:+ b +:+ c +:+ d) (a +:+ b +:+ c +:+ d +:+ after).
Proof. exists "", after. rewrite !append_assoc. reflexivity. Qed.

(** The reply of [getPriceHistory] on a non-empty series of dated rows
    reports the total change of the specification. *)
Lemma getPriceHistory_reports_total upper fmt dparse src s interval limit k ks :
  klines_of src (klines_request (String_toUpperCase upper s) interval limit)
  = Normal (Some (k :: ks)) ->
  Forall (dated dparse) (k :: ks) ->
  exists t,
    outcome (getPriceHistory upper fmt dparse src (VStr s) interval limit)
    = Normal (text_result t)
    /\ reports ("• Total Change: " +:+ plus_sign (spec_total (k :: ks))
                +:+ Number_toFixed 2 (spec_total (k :: ks)) +:+ "%") t.
Proof.
  intros Hsrc Hd.
  destruct (historicalData_dated dparse (k :: ks) Hd) as (hist & Hhist & Hlen & Hfield).
  assert (Hlatest : exists latest, hist !! pred (length hist) = Some latest).
  { apply lookup_lt_is_Some. rewrite Hlen. simpl. lia. }
  destruct Hlatest as [latest Hlatest].
  destruct hist as [|oldest rest] eqn:Ehist; [discriminate Hlen|]. rewrite <- Ehist in *.
  assert (Hlines : exists lines,
             Array_map period_line (Array_slice_last 10 hist) = Normal lines).
  { apply Array_map_Normal. unfold Array_slice_last. apply Forall_drop.
    apply Forall_lookup_2. intros i d Hi.
    destruct (Hfield i d Hi) as (_ & _ & _ & _ & Hts).
    destruct (time_part_Normal _ Hts) as [hms Hhms].
    unfold period_line. rewrite Hhms. simpl. eauto. }
  destruct Hlines as [lines Hlines].
  assert (Htotal : totalChange latest oldest = spec_total (k :: ks)).
  { destruct (Hfield _ _ Hlatest) as (_ & _ & Hclose & _).
    assert (H0 : hist !! 0%nat = Some oldest) by (rewrite Ehist; reflexivity).
    destruct (Hfield _ _ H0) as (_ & Hopen & _).
    unfold totalChange, spec_total. rewrite Hclose, Hopen, Hlen, Nat.sub_1_r.
    reflexivity. }
  eexists. split.
  - unfold getPriceHistory. apply outcome_try_Normal.
    unfold call_toUpperCase. rewrite bind_lift_Normal.
    etransitivity; [apply outcome_bind; exact Hsrc|]. cbv beta iota.
    rewrite Hhist, bind_lift_Normal.
    unfold last_item. rewrite last_lookup, Hlatest, bind_lift_Normal.
    rewrite Ehist at 1. unfold first_item. rewrite bind_lift_Normal.
    cbv zeta. rewrite Hlines, bind_lift_Normal, Htotal. reflexivity.
  - do 22 apply reports_skip. apply reports_prefix.
Qed.

(** C5.  On a series of dated candles [getPriceHistory] builds a parallel
    series of the same length whose entry [i] (counted from 0) carries the
    period index [i + 1], the parsed close of row [i], a change of exactly
    0 when it is the first and of [(close[i] - close[i-1]) / close[i-1] *
    100] otherwise; the reply reports the total change [(lastClose -
    firstOpen) / firstOpen * 100].  For the two-candle series of the
    specification the total change is 10, printed [+10.00%], and the change
    of period 2 is [(110 - 105) / 105 * 100], printed [+4.76%]. *)
Theorem price_history_changes :
  (forall dparse (klines : list kline),
      Forall (dated dparse) klines ->
      exists hist,
        historicalData dparse klines = Normal hist
        /\ length hist = length klines
        /\ forall i d, hist !! i = Some d ->
             Period.period d = (i + 1)%nat
             /\ Period.close d = close_of klines i
             /\ match i with
                | O => Period.change d = 0%float
                | S j =>
                    exists p, hist !! j = Some p
                      /\ Period.change d
                         = ((Period.close d - Period.close p) / Period.close p * 100)%float
                end)
  /\
  (forall upper fmt dparse src s interval limit k ks,
      klines_of src (klines_request (String_toUpperCase upper s) interval limit)
      = Normal (Some (k :: ks)) ->
      Forall (dated dparse) (k :: ks) ->
      exists t,
        outcome (getPriceHistory upper fmt dparse src (VStr s) interval limit)
        = Normal (text_result t)
        /\ reports ("• Total Change: " +:+ plus_sign (spec_total (k :: ks))
                    +:+ Number_toFixed 2 (spec_total (k :: ks)) +:+ "%") t)
  /\
  (spec_total Examples.two_candles = 10%float
   /\ spec_change Examples.two_candles 0 = 0%float
   /\ spec_change Examples.two_candles 1 = ((110 - 105) / 105 * 100)%float
   /\ Number_toFixed 2 (spec_change Examples.two_candles 1) = "4.76"
   /\ outcome (Examples.call Examples.mock "get_price_history"
                 (Some {[ "symbol" := VStr "btcusdt"; "interval" := VStr "1m" ]}))
      = Normal (text_result
                  ("📊 BTCUSDT Price History (1m intervals, 24 periods):" +:+ nl
                   +:+ nl
                   +:+ "📈 Summary:" +:+ nl
                   +:+ "• Period: 1970-01-01 to 1970-01-01" +:+ nl
                   +:+ "• Starting Price: $100" +:+ nl
                   +:+ "• Current Price: $110" +:+ nl
                   +:+ "• Total Change: +10.00%" +:+ nl
                   +:+ "• Highest: 115" +:+ nl
                   +:+ "• Lowest: 90" +:+ nl
                   +:+ nl
                   +:+ "📋 Recent 10 periods:" +:+ nl
                   +:+ "1970-01-01 00:00:00: 105.00 (+0.00%)" +:+ nl
                   +:+ "1970-01-01 00:01:00: 110.00 (+4.76%)"))).
Proof.
  split; [|split].
  - intros dparse klines Hd.
    destruct (historicalData_dated dparse klines Hd) as (hist & Hhist & Hlen & Hfield).
    exists hist. split; [exact Hhist|]. split; [exact Hlen|].
    intros i d Hi. destruct (Hfield i d Hi) as (Hperiod & _ & Hclose & Hchange & _).
    split; [exact Hperiod|]. split; [exact Hclose|].
    destruct i as [|j]; [exact Hchange|].
    assert (Hp : is_Some (hist !! j)).
    { apply lookup_lt_is_Some. apply lookup_lt_Some in Hi. lia. }
    destruct Hp as [p Hp]. exists p. split; [exact Hp|].
    destruct (Hfield j p Hp) as (_ & _ & Hclose' & _).
    rewrite Hchange, Hclose, Hclose'. reflexivity.
  - apply getPriceHistory_reports_total.
  - repeat split; vm_compute; reflexivity.
Qed.

(** C5 at the two-candle series. *)
Lemma price_history_changes_witness :
  Forall (dated Examples.Date_parse) Examples.two_candles
  /\ exists hist,
       historicalData Examples.Date_parse Examples.two_candles = Normal hist
       /\ length hist = 2%nat
       /\ (forall d, hist !! 1%nat = Some d ->
             exists p, hist !! 0%nat = Some p
               /\ Period.change d
                  = ((Period.close d - Period.close p) / Period.close p * 100)%float).
Proof.
  assert (Hd : Forall (dated Examples.Date_parse) Examples.two_candles).
  { repeat constructor; vm_compute; eauto. }
  split; [exact Hd|].
  destruct (proj1 price_history_changes Examples.Date_parse Examples.two_candles Hd)
    as (hist & Hhist & Hlen & Hfield).
  exists hist. split; [exact Hhist|]. split; [exact Hlen|].
  intros d H1. exact (proj2 (proj2 (Hfield 1%nat d H1))).
Defined.

(* ===================================================================== *)
(** * Further properties of the handlers and of the dispatch *)
(* ===================================================================== *)

(** ** Replies and failures *)

Lemma plain_text (t : string) : is_error_text t = false -> plain (ret (text_result t)).
Proof. intros Ht r [= <-]. exists t. split; [reflexivity | exact Ht]. Qed.

Lemma plain_throw (e : exn) : plain (throw e).
Proof. intros r H. discriminate H. Qed.

Lemma plain_bind {A} (m : io A) (k : A -> io ToolResult) :
  (forall a, plain (k a)) -> plain (bind m k).
Proof.
  intros Hk r H. apply outcome_bind_Normal in H. destruct H as (a & _ & H).
  exact (Hk a r H).
Qed.

Lemma plain_rethrow (m : io ToolResult) (g : exn -> exn) :
  plain m -> plain (try_catch m (fun e => throw (g e))).
Proof. intros Hm r H. apply outcome_try_rethrow in H. exact (Hm r H). Qed.

Ltac plainly :=
  repeat first
    [ apply plain_rethrow
    | apply plain_throw
    | apply plain_bind
    | apply plain_text; reflexivity
    | intro ].

(** What the dispatch makes of the run of a handler. *)
Lemma outcome_caught (m : io ToolResult) :
  outcome (try_catch m (fun error => ret (text_result ("Error: " +:+ message error))))
  = Normal match outcome m with
           | Normal r => r
           | Throw e => text_result ("Error: " +:+ message e)
           end.
Proof. destruct m as [s [r|e]]; reflexivity. Qed.

(** What a handler makes of the run of its body. *)
Lemma outcome_rethrown {A} (m : io A) (g : exn -> exn) :
  outcome (try_catch m (fun e => throw (g e)))
  = match outcome m with
    | Normal a => Normal a
    | Throw e => Throw (g e)
    end.
Proof. destruct m as [s [a|e]]; reflexivity. Qed.

Lemma outcome_axios_get {A B} (f : request -> completion A) (r : request)
      (k : A -> io B) :
  outcome (bind (axios_get f r) k)
  = match f r with
    | Normal a => outcome (k a)
    | Throw e => Throw e
    end.
Proof.
  unfold axios_get, bind. destruct (f r) as [a|e]; [|reflexivity].
  destruct (k a); reflexivity.
Qed.

Lemma error_text_is_error (m : string) : is_error_text ("Error: " +:+ m) = true.
Proof. reflexivity. Qed.

Section Replies.

Variable upper : string -> string.
Variable fmt : float -> string.
Variable dfmt : option Z -> string.
Variable dparse : string -> float.
Variable src : DataSource.

Lemma plain_getCurrentPrice symbol : plain (getCurrentPrice upper fmt src symbol).
Proof. unfold getCurrentPrice. plainly. Qed.

Lemma plain_get24hrTicker symbol : plain (get24hrTicker upper fmt src symbol).
Proof. unfold get24hrTicker. plainly. Qed.

Lemma plain_getKlineData symbol interval limit :
  plain (getKlineData upper fmt dfmt dparse src symbol interval limit).
Proof.
  unfold getKlineData. apply plain_rethrow.
  apply plain_bind; intros sym.
  apply plain_bind; intros [[|k ks]|]; plainly.
Qed.

Lemma plain_getPriceHistory symbol interval limit :
  plain (getPriceHistory upper fmt dparse src symbol interval limit).
Proof.
  unfold getPriceHistory. apply plain_rethrow.
  apply plain_bind; intros sym.
  apply plain_bind; intros [[|k ks]|]; plainly.
Qed.

Lemma CallTool_get_24hr_ticker args :
  CallTool upper fmt dfmt dparse src
           {| name := "get_24hr_ticker"; arguments := Some args |} =
  try_catch
    (get24hrTicker upper fmt src (prop args "symbol"))
    (fun error => ret (text_result ("Error: " +:+ message error))).
Proof. reflexivity. Qed.

Lemma sent_get24hrTicker symbol :
  sent (get24hrTicker upper fmt src symbol) =
  match symbol with
  | VStr s => [symbol_request "/ticker/24hr" (String_toUpperCase upper s)]
  | _ => []
  end.
Proof.
  unfold get24hrTicker. rewrite sent_try_catch by quiet.
  destruct symbol; try reflexivity.
  unfold call_toUpperCase. rewrite bind_lift_Normal.
  apply sent_axios_get. quiet.
Qed.

Lemma registered_cases n :
  registered n = true ->
  n = "get_current_price" \/ n = "get_24hr_ticker"
  \/ n = "get_kline_data" \/ n = "get_price_history".
Proof.
  unfold registered. cbn [existsb map ListTools tool_name].
  rewrite !orb_true_iff, !String.eqb_eq. intuition discriminate.
Qed.

Lemma unregistered_cases n :
  registered n = false ->
  n <> "get_current_price" /\ n <> "get_24hr_ticker"
  /\ n <> "get_kline_data" /\ n <> "get_price_history".
Proof.
  unfold registered. cbn [existsb map ListTools tool_name].
  rewrite !orb_false_iff, !String.eqb_neq. tauto.
Qed.

(** An exception that leaves a handler carries the handler's prefix. *)
Lemma thrown_getCurrentPrice symbol e :
  outcome (getCurrentPrice upper fmt src symbol) = Throw e ->
  exists msg, e = Error ("Failed to fetch current price: " +:+ msg).
Proof.
  unfold getCurrentPrice. rewrite outcome_rethrown.
  match goal with |- context [outcome ?m] => destruct (outcome m) as [r|e'] end;
    [discriminate|]. intros [= <-]. eauto.
Qed.

Lemma thrown_get24hrTicker symbol e :
  outcome (get24hrTicker upper fmt src symbol) = Throw e ->
  exists msg, e = Error ("Failed to fetch 24hr ticker: " +:+ msg).
Proof.
  unfold get24hrTicker. rewrite outcome_rethrown.
  match goal with |- context [outcome ?m] => destruct (outcome m) as [r|e'] end;
    [discriminate|]. intros [= <-]. eauto.
Qed.

Lemma thrown_getKlineData symbol interval limit e :
  outcome (getKlineData upper fmt dfmt dparse src symbol interval limit) = Throw e ->
  exists msg, e = Error ("Failed to fetch kline data: " +:+ msg).
Proof.
  unfold getKlineData. rewrite outcome_rethrown.
  match goal with |- context [outcome ?m] => destruct (outcome m) as [r|e'] end;
    [discriminate|]. intros [= <-]. eauto.
Qed.

Lemma thrown_getPriceHistory symbol interval limit e :
  outcome (getPriceHistory upper fmt dparse src symbol interval limit) = Throw e ->
  exists msg, e = Error ("Failed to fetch price history: " +:+ msg).
Proof.
  unfold getPriceHistory. rewrite outcome_rethrown.
  match goal with |- context [outcome ?m] => destruct (outcome m) as [r|e'] end;
    [discriminate|]. intros [= <-]. eauto.
Qed.

(** The reply to a registered tool is never the one for an unknown tool. *)
Lemma caught_is_not_unknown (m : io ToolResult) (what n : string) :
  plain m ->
  (forall e, outcome m = Throw e ->
             exists msg, e = Error ("Failed to fetch " +:+ what +:+ msg)) ->
  outcome (try_catch m (fun error => ret (text_result ("Error: " +:+ message error))))
  <> Normal (text_result ("Error: Unknown tool: " +:+ n)).
Proof.
  intros Hplain Hthrown. rewrite outcome_caught.
  destruct (outcome m) as [r|e] eqn:E.
  - destruct (Hplain r E) as (t & -> & Ht). intros [= ->]. discriminate Ht.
  - destruct (Hthrown e eq_refl) as [msg ->]. intros H. discriminate H.
Qed.

(** X1.  The dispatch knows exactly the tools the capability list
    announces: with arguments present, the reply is [Error: Unknown tool:
    <name>] if and only if the name is not listed. *)
Theorem unknown_tool_iff_not_listed (n : string) (args : gmap string jsval) :
  registered n = false <->
  outcome (CallTool upper fmt dfmt dparse src {| name := n; arguments := Some args |})
  = Normal (text_result ("Error: Unknown tool: " +:+ n)).
Proof.
  split.
  - intros H. apply unregistered_cases in H. destruct H as (H1 & H2 & H3 & H4).
    unfold CallTool; cbn [name arguments].
    apply String.eqb_neq in H1, H2, H3, H4. rewrite H1, H2, H3, H4. reflexivity.
  - intros H. destruct (registered n) eqn:E; [|reflexivity]. exfalso. revert H.
    destruct (registered_cases n E) as [-> | [-> | [-> | ->]]].
    + rewrite CallTool_get_current_price.
      apply caught_is_not_unknown with (what := "current price: ").
      * apply plain_getCurrentPrice.
      * apply thrown_getCurrentPrice.
    + rewrite CallTool_get_24hr_ticker.
      apply caught_is_not_unknown with (what := "24hr ticker: ").
      * apply plain_get24hrTicker.
      * apply thrown_get24hrTicker.
    + rewrite CallTool_get_kline_data.
      apply caught_is_not_unknown with (what := "kline data: ").
      * apply plain_getKlineData.
      * apply thrown_getKlineData.
    + rewrite CallTool_get_price_history.
      apply caught_is_not_unknown with (what := "price history: ").
      * apply plain_getPriceHistory.
      * apply thrown_getPriceHistory.
Qed.

(** X2.  When the HTTP client fails with a message, each tool replies
    with that message behind two prefixes, [Error: ] of the dispatch and
    [Failed to fetch ...: ] of the handler. *)
Theorem outbound_failure_is_wrapped_twice (args : gmap string jsval) (s : string)
        (e : exn) :
  prop args "symbol" = VStr s ->
  (ticker_price src (symbol_request "/ticker/price" (String_toUpperCase upper s)) = Throw e ->
   outcome (CallTool upper fmt dfmt dparse src
                     {| name := "get_current_price"; arguments := Some args |})
   = Normal (text_result ("Error: Failed to fetch current price: " +:+ message e)))
  /\
  (ticker_24hr src (symbol_request "/ticker/24hr" (String_toUpperCase upper s)) = Throw e ->
   outcome (CallTool upper fmt dfmt dparse src
                     {| name := "get_24hr_ticker"; arguments := Some args |})
   = Normal (text_result ("Error: Failed to fetch 24hr ticker: " +:+ message e)))
  /\
  (klines_of src (klines_request (String_toUpperCase upper s) (prop args "interval")
                                 (or_else (prop args "limit") (VNum 100))) = Throw e ->
   outcome (CallTool upper fmt dfmt dparse src
                     {| name := "get_kline_data"; arguments := Some args |})
   = Normal (text_result ("Error: Failed to fetch kline data: " +:+ message e)))
  /\
  (klines_of src (klines_request (String_toUpperCase upper s) (prop args "interval")
                                 (or_else (prop args "limit") (VNum 24))) = Throw e ->
   outcome (CallTool upper fmt dfmt dparse src
                     {| name := "get_price_history"; arguments := Some args |})
   = Normal (text_result ("Error: Failed to fetch price history: " +:+ message e))).
Proof.
  intros Hs. repeat apply conj; intros H.
  - rewrite CallTool_get_current_price, outcome_caught, Hs.
    unfold getCurrentPrice. rewrite outcome_rethrown.
    unfold call_toUpperCase. rewrite bind_lift_Normal, outcome_axios_get.
    unfold symbol_request in H. rewrite H. reflexivity.
  - rewrite CallTool_get_24hr_ticker, outcome_caught, Hs.
    unfold get24hrTicker. rewrite outcome_rethrown.
    unfold call_toUpperCase. rewrite bind_lift_Normal, outcome_axios_get.
    unfold symbol_request in H. rewrite H. reflexivity.
  - rewrite CallTool_get_kline_data, outcome_caught, Hs.
    unfold getKlineData. rewrite outcome_rethrown.
    unfold call_toUpperCase. rewrite bind_lift_Normal, outcome_axios_get.
    rewrite H. reflexivity.
  - rewrite CallTool_get_price_history, outcome_caught, Hs.
    unfold getPriceHistory. rewrite outcome_rethrown.
    unfold call_toUpperCase. rewrite bind_lift_Normal, outcome_axios_get.
    rewrite H. reflexivity.
Qed.

(** What the dispatch sends for each registered tool. *)
Lemma sent_registered n args :
  registered n = true ->
  sent (CallTool upper fmt dfmt dparse src {| name := n; arguments := Some args |})
  = match prop args "symbol" with
    | VStr s =>
        [ if String.eqb n "get_current_price" then
            symbol_request "/ticker/price" (String_toUpperCase upper s)
          else if String.eqb n "get_24hr_ticker" then
            symbol_request "/ticker/24hr" (String_toUpperCase upper s)
          else klines_request (String_toUpperCase upper s) (prop args "interval")
                 (or_else (prop args "limit") (VNum (default_limit n))) ]
    | _ => []
    end.
Proof.
  intros E. destruct (registered_cases n E) as [-> | [-> | [-> | ->]]].
  - rewrite CallTool_get_current_price, sent_try_catch by quiet.
    rewrite sent_getCurrentPrice. destruct (prop args "symbol"); reflexivity.
  - rewrite CallTool_get_24hr_ticker, sent_try_catch by quiet.
    rewrite sent_get24hrTicker. destruct (prop args "symbol"); reflexivity.
  - rewrite sent_CallTool_get_kline_data. destruct (prop args "symbol"); reflexivity.
  - rewrite sent_CallTool_get_price_history. destruct (prop args "symbol"); reflexivity.
Qed.

Lemma sent_unregistered n args :
  registered n = false ->
  sent (CallTool upper fmt dfmt dparse src {| name := n; arguments := Some args |}) = [].
Proof.
  intros H. apply unregistered_cases in H. destruct H as (H1 & H2 & H3 & H4).
  unfold CallTool; cbn [name arguments].
  apply String.eqb_neq in H1, H2, H3, H4. rewrite H1, H2, H3, H4. reflexivity.
Qed.

(** X3.  An invocation makes at most one outbound request, and it makes
    one exactly when its arguments are present, its tool is registered and
    its symbol argument is a string. *)
Theorem at_most_one_request (request : CallToolRequest) :
  (length (sent (CallTool upper fmt dfmt dparse src request)) <= 1)%nat
  /\ (sent (CallTool upper fmt dfmt dparse src request) <> [] <->
      exists args s,
        arguments request = Some args
        /\ registered (name request) = true
        /\ prop args "symbol" = VStr s).
Proof.
  destruct request as [n [args|]]; cbn [name arguments].
  - destruct (registered n) eqn:E.
    + rewrite (sent_registered n args E).
      destruct (prop args "symbol") as [| |b|x|s] eqn:Hs; simpl;
        (split; [lia|]); split;
        try (intros H; exfalso; apply H; reflexivity);
        try (intros (args' & s' & [= <-] & _ & H); rewrite Hs in H; discriminate H).
      * intros _. exists args, s. auto.
      * intros _. discriminate.
    + rewrite (sent_unregistered n args E). simpl. split; [lia|]. split.
      * intros H. exfalso. apply H. reflexivity.
      * intros (args' & s' & _ & H & _). discriminate H.
  - simpl. split; [lia|]. split.
    + intros H. exfalso. apply H. reflexivity.
    + intros (args' & s' & H & _). discriminate H.
Qed.

(** X4.  Whatever an invocation sends goes to the endpoint of its tool
    under the base URL, [/ticker/price], [/ticker/24hr] or [/klines], and
    carries as [symbol] the [toUpperCase()] of the symbol supplied; for an
    ASCII symbol that is an ASCII text without lower-case letters. *)
Theorem every_request_by_tool (invocation : CallToolRequest) (r : request) :
  r ∈ sent (CallTool upper fmt dfmt dparse src invocation) ->
  ((name invocation = "get_current_price"
    /\ url r = "https://api.binance.com/api/v3/ticker/price")
   \/ (name invocation = "get_24hr_ticker"
       /\ url r = "https://api.binance.com/api/v3/ticker/24hr")
   \/ ((name invocation = "get_kline_data" \/ name invocation = "get_price_history")
       /\ url r = "https://api.binance.com/api/v3/klines"))
  /\ exists args s,
       arguments invocation = Some args
       /\ prop args "symbol" = VStr s
       /\ param "symbol" (params r) = VStr (String_toUpperCase upper s)
       /\ (is_ascii s = true ->
           is_ascii (String_toUpperCase upper s) = true
           /\ no_lower_case (String_toUpperCase upper s) = true).
Proof.
  destruct invocation as [n [args|]]; cbn [name arguments];
    [|intros H; apply elem_of_nil in H; contradiction].
  destruct (registered n) eqn:E;
    [|rewrite (sent_unregistered n args E); intros H; apply elem_of_nil in H;
      contradiction].
  rewrite (sent_registered n args E).
  destruct (prop args "symbol") as [| |b|x|s] eqn:Hs;
    try (intros H; apply elem_of_nil in H; contradiction).
  intros H. apply list_elem_of_singleton in H. subst r.
  destruct (registered_cases n E) as [-> | [-> | [-> | ->]]];
    (split; [auto 6|]); exists args, s;
    (split; [reflexivity|]); (split; [exact Hs|]);
    (split; [reflexivity | apply String_toUpperCase_no_lower_case]).
Qed.

Lemma prop_insert_eq (args : gmap string jsval) key v :
  prop (<[key := v]> args) key = v.
Proof. unfold prop. rewrite lookup_insert_eq. reflexivity. Qed.

Lemma prop_insert_ne (args : gmap string jsval) key key' v :
  key <> key' -> prop (<[key := v]> args) key' = prop args key'.
Proof. intros H. unfold prop. rewrite lookup_insert_ne by exact H. reflexivity. Qed.

(** X5.  Only the upper-cased symbol matters: two symbols with the same
    upper case give the same run, requests and reply alike, for every
    tool. *)
Theorem symbol_case_is_irrelevant (n : string) (args : gmap string jsval)
        (s1 s2 : string) :
  String_toUpperCase upper s1 = String_toUpperCase upper s2 ->
  CallTool upper fmt dfmt dparse src
           {| name := n; arguments := Some (<["symbol" := VStr s1]> args) |}
  = CallTool upper fmt dfmt dparse src
             {| name := n; arguments := Some (<["symbol" := VStr s2]> args) |}.
Proof.
  intros H. unfold CallTool; cbn [name arguments].
  rewrite !prop_insert_eq, !(prop_insert_ne _ "symbol" "interval") by discriminate.
  rewrite !(prop_insert_ne _ "symbol" "limit") by discriminate.
  unfold getCurrentPrice, get24hrTicker, getKlineData, getPriceHistory,
    call_toUpperCase.
  rewrite H. reflexivity.
Qed.

(** X6.  Arguments a tool does not read are ignored: any key other than
    [symbol], [interval] and [limit] may be added without changing the run,
    and the two ticker tools ignore [interval] and [limit] as well. *)
Theorem unread_arguments_are_ignored (n key : string) (v : jsval)
        (args : gmap string jsval) :
  key <> "symbol" ->
  (key <> "interval" /\ key <> "limit")
  \/ n = "get_current_price" \/ n = "get_24hr_ticker" ->
  CallTool upper fmt dfmt dparse src {| name := n; arguments := Some (<[key := v]> args) |}
  = CallTool upper fmt dfmt dparse src {| name := n; arguments := Some args |}.
Proof.
  intros Hs [[Hi Hl] | [-> | ->]].
  - unfold CallTool; cbn [name arguments].
    rewrite !(prop_insert_ne _ key "symbol"), !(prop_insert_ne _ key "interval"),
      !(prop_insert_ne _ key "limit") by assumption.
    reflexivity.
  - rewrite !CallTool_get_current_price, prop_insert_ne by assumption. reflexivity.
  - rewrite !CallTool_get_24hr_ticker, prop_insert_ne by assumption. reflexivity.
Qed.

End Replies.

Lemma upper_char_idempotent (c : ascii) : upper_char (upper_char c) = upper_char c.
Proof. destruct c as [[] [] [] [] [] [] [] []]; reflexivity. Qed.

Lemma ascii_toUpperCase_idempotent (s : string) :
  ascii_toUpperCase (ascii_toUpperCase s) = ascii_toUpperCase s.
Proof.
  induction s as [|c r IH]; [reflexivity|].
  simpl. rewrite upper_char_idempotent, IH. reflexivity.
Qed.

(** An ASCII symbol and its upper case have the same upper case. *)
Lemma String_toUpperCase_idempotent (upper : string -> string) (s : string) :
  is_ascii s = true ->
  String_toUpperCase upper (String_toUpperCase upper s) = String_toUpperCase upper s.
Proof.
  intros H. rewrite (String_toUpperCase_ascii upper s H).
  rewrite (String_toUpperCase_ascii upper _ (ascii_toUpperCase_is_ascii s H)).
  apply ascii_toUpperCase_idempotent.
Qed.

(** ** Arrays *)

Lemma Array_map_Forall2 {A B} (f : A -> completion B) (l : list A) (ys : list B) :
  Array_map f l = Normal ys -> Forall2 (fun x y => f x = Normal y) l ys.
Proof.
  revert ys. induction l as [|x r IH]; intros ys; simpl.
  - intros [= <-]. constructor.
  - destruct (f x) as [y|e] eqn:Hx; [|discriminate]. simpl.
    destruct (Array_map f r) as [ys'|e]; [|discriminate]. simpl.
    intros [= <-]. constructor; [exact Hx | apply IH; reflexivity].
Qed.

Lemma Array_map_inv {A B} (f : A -> completion B) (l : list A) (ys : list B) :
  Array_map f l = Normal ys -> Forall (fun x => exists y, f x = Normal y) l.
Proof.
  intros H. apply Array_map_Forall2 in H.
  induction H; constructor; eauto.
Qed.

(** When every failure of the callback is the same exception, a failing
    element anywhere makes [map] throw it. *)
Lemma Array_map_Throw {A B} (f : A -> completion B) (l : list A) (e0 : exn) :
  (forall x, f x = Throw e0 \/ exists y, f x = Normal y) ->
  Exists (fun x => f x = Throw e0) l ->
  Array_map f l = Throw e0.
Proof.
  intros Hf. induction l as [|x r IH]; intros H; [inversion H|].
  simpl. destruct (Hf x) as [Hx | [y Hx]]; rewrite Hx; [reflexivity|]. simpl.
  inversion H as [? ? Hx' | ? ? Hr]; subst; [congruence|].
  rewrite (IH Hr). reflexivity.
Qed.

Lemma Array_mapi_from_inv {A B} (f : A -> nat -> completion B) (l : list A)
      (i : nat) (ys : list B) :
  Array_mapi_from i f l = Normal ys ->
  Forall (fun x => exists j y, f x j = Normal y) l.
Proof.
  revert i ys. induction l as [|x r IH]; intros i ys; simpl; [constructor|].
  destruct (f x i) as [y|e] eqn:Hx; [|discriminate]. simpl.
  destruct (Array_mapi_from (S i) f r) as [ys'|e] eqn:Hr; [|discriminate].
  intros _. constructor; [eauto | exact (IH _ _ Hr)].
Qed.

Lemma Array_mapi_from_Throw {A B} (f : A -> nat -> completion B) (l : list A)
      (i : nat) (e0 : exn) :
  (forall x j, f x j = Throw e0 \/ exists y, f x j = Normal y) ->
  Exists (fun x => forall j, f x j = Throw e0) l ->
  Array_mapi_from i f l = Throw e0.
Proof.
  intros Hf. revert i. induction l as [|x r IH]; intros i H; [inversion H|].
  simpl. destruct (Hf x i) as [Hx | [y Hx]]; rewrite Hx; [reflexivity|]. simpl.
  inversion H as [? ? Hx' | ? ? Hr]; subst; [rewrite Hx' in Hx; discriminate Hx|].
  rewrite (IH (S i) Hr). reflexivity.
Qed.

Lemma Forall2_last {A B} (P : A -> B -> Prop) (l : list A) (k : list B) (x : A) :
  Forall2 P l k -> last l = Some x -> exists y, last k = Some y /\ P x y.
Proof.
  intros H Hx. rewrite last_lookup in Hx.
  destruct (Forall2_lookup_l _ _ _ _ _ H Hx) as (y & Hy & HP).
  exists y. split; [|exact HP].
  rewrite last_lookup, <- (Forall2_length _ _ _ H). exact Hy.
Qed.

(** [a.slice(-n)] keeps the last [min n (length a)] elements, in order. *)
Lemma Array_slice_last_suffix {A} (n : nat) (l : list A) :
  exists front, l = front ++ Array_slice_last n l
                /\ length (Array_slice_last n l) = Nat.min n (length l).
Proof.
  unfold Array_slice_last. exists (take (length l - n) l).
  split; [symmetry; apply take_drop|]. rewrite length_drop. lia.
Qed.

Lemma Array_slice_last_last {A} (n : nat) (l : list A) :
  last (Array_slice_last (S n) l) = last l.
Proof.
  unfold Array_slice_last. rewrite !last_lookup, lookup_drop, length_drop.
  destruct l as [|x r]; [reflexivity|]. f_equal. simpl length. lia.
Qed.

Lemma Array_slice_last_nil {A} (n : nat) (l : list A) :
  Array_slice_last (S n) l = [] -> l = [].
Proof.
  intros H. destruct (Array_slice_last_suffix (S n) l) as (front & _ & Hlen).
  rewrite H in Hlen. simpl in Hlen. destruct l; [reflexivity | simpl in Hlen; lia].
Qed.

(** ** When a tool succeeds *)

(** A reply marks a failure exactly when the handler threw. *)
Lemma error_text_iff (m : io ToolResult) (P : Prop) :
  plain m ->
  ((exists r, outcome m = Normal r) <-> P) ->
  exists t,
    outcome (try_catch m (fun error => ret (text_result ("Error: " +:+ message error))))
    = Normal (text_result t)
    /\ (is_error_text t = false <-> P).
Proof.
  intros Hplain HP. rewrite outcome_caught.
  destruct (outcome m) as [r|e] eqn:E.
  - destruct (Hplain r E) as (t & -> & Ht). exists t. split; [reflexivity|].
    split; [intros _; apply HP; eauto | intros _; exact Ht].
  - eexists. split; [reflexivity|]. split; [discriminate|].
    intros H. apply HP in H. destruct H as [r H]. discriminate H.
Qed.

(** A reply marks a failure exactly when the handler threw. *)
Lemma error_text_when_thrown (m : io ToolResult) :
  plain m ->
  exists t,
    outcome (try_catch m (fun error => ret (text_result ("Error: " +:+ message error))))
    = Normal (text_result t)
    /\ (is_error_text t = true <-> exists e, outcome m = Throw e)
    /\ (is_error_text t = false -> exists r, outcome m = Normal r).
Proof.
  intros Hplain. rewrite outcome_caught.
  destruct (outcome m) as [r|e] eqn:E.
  - destruct (Hplain r E) as (t & -> & Ht). exists t. split; [reflexivity|].
    split; [|eauto].
    split; [intros H; rewrite H in Ht; discriminate Ht | intros [e H]; discriminate H].
  - eexists. split; [reflexivity|].
    split; [split; [eauto | reflexivity] | intros H; discriminate H].
Qed.

Lemma Date_toISOString_Some (tv : Z) : exists ts, Date_toISOString (Some tv) = Normal ts.
Proof.
  unfold Date_toISOString.
  destruct (civil_from_days (tv / 86400000)) as [[y m] dd]. eauto.
Qed.

Lemma last_is_Some {A} (x : A) (l : list A) : exists y, last (x :: l) = Some y.
Proof.
  rewrite last_lookup. apply lookup_lt_is_Some. simpl. lia.
Qed.

Section Outcomes.

Variable upper : string -> string.
Variable fmt : float -> string.
Variable dfmt : option Z -> string.
Variable dparse : string -> float.
Variable src : DataSource.

Lemma parse_candle_dated (k : kline) :
  (exists c, parse_candle dparse k = Normal c) <-> dated dparse k.
Proof.
  unfold parse_candle, dated. destruct (Date_new dparse (cell k 0)) as [tv|].
  - destruct (Date_toISOString_Some tv) as [ts Hts]. rewrite Hts. simpl.
    split; eauto.
  - simpl. split; [intros [c H]; discriminate H | intros [tv H]; discriminate H].
Qed.

Lemma parse_candle_undated (k : kline) :
  Date_new dparse (cell k 0) = None ->
  parse_candle dparse k = Throw (RangeError "Invalid time value").
Proof. intros H. unfold parse_candle. rewrite H. reflexivity. Qed.

Lemma parse_candle_total (k : kline) :
  parse_candle dparse k = Throw (RangeError "Invalid time value")
  \/ exists c, parse_candle dparse k = Normal c.
Proof.
  destruct (Date_new dparse (cell k 0)) as [tv|] eqn:E.
  - right. apply parse_candle_dated. exists tv. exact E.
  - left. apply parse_candle_undated. exact E.
Qed.

Lemma parse_period_undated (klines : list kline) (k : kline) (i : nat) :
  Date_new dparse (cell k 0) = None ->
  parse_period dparse klines k i = Throw (RangeError "Invalid time value").
Proof. intros H. unfold parse_period. rewrite H. reflexivity. Qed.

Lemma parse_period_total (klines : list kline) (k : kline) (i : nat) :
  parse_period dparse klines k i = Throw (RangeError "Invalid time value")
  \/ exists d, parse_period dparse klines k i = Normal d.
Proof.
  destruct (Date_new dparse (cell k 0)) as [tv|] eqn:E.
  - right. destruct (parse_period_dated dparse klines k i) as (ts & _ & H);
      [exists tv; exact E | eauto].
  - left. apply parse_period_undated. exact E.
Qed.

Lemma parse_period_Normal_dated (klines : list kline) (k : kline) (i : nat) d :
  parse_period dparse klines k i = Normal d -> dated dparse k.
Proof.
  unfold dated. destruct (Date_new dparse (cell k 0)) as [tv|] eqn:E; [eauto|].
  rewrite (parse_period_undated klines k i E). discriminate.
Qed.

(** *** The ticker tools *)

Lemma getCurrentPrice_Normal_inv symbol r :
  outcome (getCurrentPrice upper fmt src symbol) = Normal r ->
  exists s data,
    symbol = VStr s
    /\ ticker_price src (symbol_request "/ticker/price" (String_toUpperCase upper s))
       = Normal data.
Proof.
  unfold getCurrentPrice. rewrite outcome_rethrown.
  destruct symbol as [| |b|x|s]; cbn [call_toUpperCase];
    try (rewrite bind_lift_Throw; intros H; discriminate H).
  rewrite bind_lift_Normal, outcome_axios_get. unfold symbol_request.
  match goal with |- context [ticker_price src ?q] =>
    destruct (ticker_price src q) as [data|e] eqn:E end.
  - intros _. exists s, data. auto.
  - intros H. discriminate H.
Qed.

Lemma get24hrTicker_Normal_inv symbol r :
  outcome (get24hrTicker upper fmt src symbol) = Normal r ->
  exists s data,
    symbol = VStr s
    /\ ticker_24hr src (symbol_request "/ticker/24hr" (String_toUpperCase upper s))
       = Normal data.
Proof.
  unfold get24hrTicker. rewrite outcome_rethrown.
  destruct symbol as [| |b|x|s]; cbn [call_toUpperCase];
    try (rewrite bind_lift_Throw; intros H; discriminate H).
  rewrite bind_lift_Normal, outcome_axios_get. unfold symbol_request.
  match goal with |- context [ticker_24hr src ?q] =>
    destruct (ticker_24hr src q) as [data|e] eqn:E end.
  - intros _. exists s, data. auto.
  - intros H. discriminate H.
Qed.

(** X7.  A ticker tool always answers with one text.  The text marks a
    failure (starts with [Error: ]) exactly when the handler threw, and
    a text that marks no failure is only sent when the symbol argument
    is a string and the data source answered the request with a body.
    Nothing is said of what a body is enough for a reply: the handler
    may still throw after the body has arrived. *)
Theorem ticker_reply_is_error_iff (args : gmap string jsval) :
  (exists t,
      outcome (CallTool upper fmt dfmt dparse src
                        {| name := "get_current_price"; arguments := Some args |})
      = Normal (text_result t)
      /\ (is_error_text t = true <->
          exists e, outcome (getCurrentPrice upper fmt src (prop args "symbol")) = Throw e)
      /\ (is_error_text t = false ->
          exists s data,
            prop args "symbol" = VStr s
            /\ ticker_price src (symbol_request "/ticker/price" (String_toUpperCase upper s))
               = Normal data))
  /\
  (exists t,
      outcome (CallTool upper fmt dfmt dparse src
                        {| name := "get_24hr_ticker"; arguments := Some args |})
      = Normal (text_result t)
      /\ (is_error_text t = true <->
          exists e, outcome (get24hrTicker upper fmt src (prop args "symbol")) = Throw e)
      /\ (is_error_text t = false ->
          exists s data,
            prop args "symbol" = VStr s
            /\ ticker_24hr src (symbol_request "/ticker/24hr" (String_toUpperCase upper s))
               = Normal data)).
Proof.
  split.
  - rewrite CallTool_get_current_price.
    destruct (error_text_when_thrown _ (plain_getCurrentPrice upper fmt src (prop args "symbol")))
      as (t & Ht & Hiff & Hok).
    exists t. split; [exact Ht|]. split; [exact Hiff|].
    intros H. destruct (Hok H) as [r Hr].
    exact (getCurrentPrice_Normal_inv _ _ Hr).
  - rewrite CallTool_get_24hr_ticker.
    destruct (error_text_when_thrown _ (plain_get24hrTicker upper fmt src (prop args "symbol")))
      as (t & Ht & Hiff & Hok).
    exists t. split; [exact Ht|]. split; [exact Hiff|].
    intros H. destruct (Hok H) as [r Hr].
    exact (get24hrTicker_Normal_inv _ _ Hr).
Qed.

(** *** [get_kline_data] *)

(** X8.  On a series whose last five rows are dated, [getKlineData]
    replies with exactly this text: the heading with the upper-cased
    symbol, the interval and the limit; the latest candle, which is the
    last row of the whole series, each of its numbers on a line of its
    own; one line for each row of the window of the last five rows, as
    many as the smaller of five and the length of the series; and, as
    the last line, the length of the whole series, not of the window. *)
Theorem kline_reply_shows_last_row (s : string) (interval limit : jsval)
        (ks : list kline) (row : kline) (ts : string) :
  klines_of src (klines_request (String_toUpperCase upper s) interval limit)
  = Normal (Some ks) ->
  Forall (dated dparse) (Array_slice_last 5 ks) ->
  last ks = Some row ->
  Date_toISOString (Date_new dparse (cell row 0)) = Normal ts ->
  exists cs,
    Array_map (parse_candle dparse) (Array_slice_last 5 ks) = Normal cs
    /\ length cs = Nat.min 5 (length ks)
    /\ outcome (getKlineData upper fmt dfmt dparse src (VStr s) interval limit)
       = Normal (text_result
           ("📈 " +:+ String_toUpperCase upper s +:+ " Kline Data (" +:+ ToString interval
            +:+ " interval, last " +:+ ToString limit +:+ " periods):" +:+ nl
            +:+ nl
            +:+ "Latest Candle:" +:+ nl
            +:+ "🕐 Time: " +:+ ts +:+ nl
            +:+ "🟢 Open: $" +:+ fmt (parseFloat (cell row 1)) +:+ nl
            +:+ "🔴 Close: $" +:+ fmt (parseFloat (cell row 4)) +:+ nl
            +:+ "🔼 High: $" +:+ fmt (parseFloat (cell row 2)) +:+ nl
            +:+ "🔽 Low: $" +:+ fmt (parseFloat (cell row 3)) +:+ nl
            +:+ "📊 Volume: " +:+ fmt (parseFloat (cell row 5)) +:+ nl
            +:+ nl
            +:+ "Recent 5 candles:" +:+ nl
            +:+ Array_join nl (map (candle_line dfmt dparse) cs) +:+ nl
            +:+ nl
            +:+ "Total data points received: " +:+ dec (Z.of_nat (length ks)))).
Proof.
  intros Hsrc Hd Hrow Hts.
  destruct ks as [|k ks']; [discriminate Hrow|].
  destruct (Array_map_Normal (parse_candle dparse) (Array_slice_last 5 (k :: ks')))
    as [cs Hcs].
  { eapply Forall_impl; [exact Hd|]. intros k0 Hk0. apply parse_candle_dated. exact Hk0. }
  pose proof (Array_map_Forall2 _ _ _ Hcs) as Hall.
  rewrite <- (Array_slice_last_last 4) in Hrow.
  destruct (Forall2_last _ _ _ _ Hall Hrow) as (c & Hc & Hparse).
  unfold parse_candle in Hparse. rewrite Hts in Hparse. simpl in Hparse.
  injection Hparse as Ec.
  exists cs. split; [exact Hcs|]. split.
  - rewrite <- (Forall2_length _ _ _ Hall).
    destruct (Array_slice_last_suffix 5 (k :: ks')) as (front & _ & Hlen). exact Hlen.
  - unfold getKlineData. apply outcome_try_Normal.
    unfold call_toUpperCase. rewrite bind_lift_Normal.
    etransitivity; [apply outcome_bind; exact Hsrc|]. cbv beta iota.
    rewrite Hcs, bind_lift_Normal.
    unfold last_item. rewrite Hc, bind_lift_Normal. rewrite <- Ec. reflexivity.
Qed.

Lemma getKlineData_succeeds symbol interval limit :
  (exists r, outcome (getKlineData upper fmt dfmt dparse src symbol interval limit) = Normal r)
  <->
  exists s k ks,
    symbol = VStr s
    /\ klines_of src (klines_request (String_toUpperCase upper s) interval limit)
       = Normal (Some (k :: ks))
    /\ Forall (dated dparse) (Array_slice_last 5 (k :: ks)).
Proof.
  split.
  - intros [r H]. unfold getKlineData in H.
    apply outcome_try_rethrow with (g := fun e => Error (_ +:+ message e)) in H.
    apply outcome_bind_Normal in H. destruct H as (sym & Hsym & H).
    destruct symbol as [| |b|x|s]; try discriminate Hsym.
    injection Hsym as <-.
    apply outcome_bind_Normal in H. destruct H as (body & Hbody & H).
    destruct body as [[|k ks]|]; try discriminate H.
    apply outcome_bind_Normal in H. destruct H as (cs & Hcs & _).
    exists s, k, ks. split; [reflexivity|]. split; [exact Hbody|].
    apply Array_map_inv in Hcs.
    eapply Forall_impl; [exact Hcs|]. intros k0 Hk0. apply parse_candle_dated. exact Hk0.
  - intros (s & k & ks & -> & Hsrc & Hd).
    destruct (Array_map_Normal (parse_candle dparse) (Array_slice_last 5 (k :: ks)))
      as [cs Hcs].
    { eapply Forall_impl; [exact Hd|]. intros k0 Hk0. apply parse_candle_dated.
      exact Hk0. }
    destruct (last_is_Some k ks) as [row Hrow].
    rewrite <- (Array_slice_last_last 4) in Hrow.
    destruct (Forall2_last _ _ _ _ (Array_map_Forall2 _ _ _ Hcs) Hrow) as (c & Hc & _).
    eexists. unfold getKlineData. apply outcome_try_Normal.
    unfold call_toUpperCase. rewrite bind_lift_Normal.
    etransitivity; [apply outcome_bind; exact Hsrc|]. cbv beta iota.
    rewrite Hcs, bind_lift_Normal.
    unfold last_item. rewrite Hc, bind_lift_Normal. reflexivity.
Qed.

(** X9.  The reply of [get_kline_data] marks a failure unless the symbol
    is a string, the source answered a non-empty series and each of its
    last five rows has a valid open time; rows before the last five are
    not looked at. *)
Theorem kline_reply_is_error_iff (args : gmap string jsval) :
  exists t,
    outcome (CallTool upper fmt dfmt dparse src
                      {| name := "get_kline_data"; arguments := Some args |})
    = Normal (text_result t)
    /\ (is_error_text t = false <->
        exists s k ks,
          prop args "symbol" = VStr s
          /\ klines_of src (klines_request (String_toUpperCase upper s) (prop args "interval")
                                           (or_else (prop args "limit") (VNum 100)))
             = Normal (Some (k :: ks))
          /\ Forall (dated dparse) (Array_slice_last 5 (k :: ks))).
Proof.
  rewrite CallTool_get_kline_data.
  apply error_text_iff; [apply plain_getKlineData | apply getKlineData_succeeds].
Qed.

(** *** [get_price_history] *)

Lemma getPriceHistory_succeeds symbol interval limit :
  (exists r, outcome (getPriceHistory upper fmt dparse src symbol interval limit) = Normal r)
  <->
  exists s k ks,
    symbol = VStr s
    /\ klines_of src (klines_request (String_toUpperCase upper s) interval limit)
       = Normal (Some (k :: ks))
    /\ Forall (dated dparse) (k :: ks).
Proof.
  split.
  - intros [r H]. unfold getPriceHistory in H.
    apply outcome_try_rethrow with (g := fun e => Error (_ +:+ message e)) in H.
    apply outcome_bind_Normal in H. destruct H as (sym & Hsym & H).
    destruct symbol as [| |b|x|s]; try discriminate Hsym.
    injection Hsym as <-.
    apply outcome_bind_Normal in H. destruct H as (body & Hbody & H).
    destruct body as [[|k ks]|]; try discriminate H.
    apply outcome_bind_Normal in H. destruct H as (hist & Hhist & _).
    exists s, k, ks. split; [reflexivity|]. split; [exact Hbody|].
    apply Array_mapi_from_inv in Hhist.
    eapply Forall_impl; [exact Hhist|]. intros k0 (j & d & Hd).
    exact (parse_period_Normal_dated _ _ _ _ Hd).
  - intros (s & k & ks & -> & Hsrc & Hd).
    destruct (getPriceHistory_reports_total upper fmt dparse src s interval limit k ks
                Hsrc Hd)
      as (t & Ht & _).
    eauto.
Qed.

(** X10.  The reply of [get_price_history] marks a failure unless the
    symbol is a string, the source answered a non-empty series and every
    row of it has a valid open time. *)
Theorem history_reply_is_error_iff (args : gmap string jsval) :
  exists t,
    outcome (CallTool upper fmt dfmt dparse src
                      {| name := "get_price_history"; arguments := Some args |})
    = Normal (text_result t)
    /\ (is_error_text t = false <->
        exists s k ks,
          prop args "symbol" = VStr s
          /\ klines_of src (klines_request (String_toUpperCase upper s) (prop args "interval")
                                           (or_else (prop args "limit") (VNum 24)))
             = Normal (Some (k :: ks))
          /\ Forall (dated dparse) (k :: ks)).
Proof.
  rewrite CallTool_get_price_history.
  apply error_text_iff; [apply plain_getPriceHistory | apply getPriceHistory_succeeds].
Qed.

(** X11.  A row whose open time makes no valid date fails the tool with
    [Invalid time value]: any row of the series for [get_price_history],
    any of the last five for [get_kline_data]. *)
Theorem invalid_open_time_fails (args : gmap string jsval) (s : string)
        (ks : list kline) :
  prop args "symbol" = VStr s ->
  (klines_of src (klines_request (String_toUpperCase upper s) (prop args "interval")
                                 (or_else (prop args "limit") (VNum 100)))
   = Normal (Some ks) ->
   Exists (fun k => Date_new dparse (cell k 0) = None) (Array_slice_last 5 ks) ->
   outcome (CallTool upper fmt dfmt dparse src
                     {| name := "get_kline_data"; arguments := Some args |})
   = Normal (text_result "Error: Failed to fetch kline data: Invalid time value"))
  /\
  (klines_of src (klines_request (String_toUpperCase upper s) (prop args "interval")
                                 (or_else (prop args "limit") (VNum 24)))
   = Normal (Some ks) ->
   Exists (fun k => Date_new dparse (cell k 0) = None) ks ->
   outcome (CallTool upper fmt dfmt dparse src
                     {| name := "get_price_history"; arguments := Some args |})
   = Normal (text_result "Error: Failed to fetch price history: Invalid time value")).
Proof.
  intros Hs. split; intros Hsrc Hbad.
  - rewrite CallTool_get_kline_data, outcome_caught, Hs.
    unfold getKlineData. rewrite outcome_rethrown.
    unfold call_toUpperCase. rewrite bind_lift_Normal, outcome_axios_get, Hsrc.
    destruct ks as [|k ks']; [inversion Hbad|]. cbv beta iota.
    rewrite (Array_map_Throw (parse_candle dparse) _ (RangeError "Invalid time value")).
    + reflexivity.
    + apply parse_candle_total.
    + eapply Exists_impl; [exact Hbad|]. intros k0 Hk0.
      apply parse_candle_undated. exact Hk0.
  - rewrite CallTool_get_price_history, outcome_caught, Hs.
    unfold getPriceHistory. rewrite outcome_rethrown.
    unfold call_toUpperCase. rewrite bind_lift_Normal, outcome_axios_get, Hsrc.
    destruct ks as [|k ks']; [inversion Hbad|]. cbv beta iota.
    unfold historicalData, Array_mapi.
    rewrite (Array_mapi_from_Throw (parse_period dparse (k :: ks')) _ 0
               (RangeError "Invalid time value")).
    + reflexivity.
    + apply parse_period_total.
    + eapply Exists_impl; [exact Hbad|]. intros k0 Hk0 j.
      apply parse_period_undated. exact Hk0.
Qed.

(** X12.  [get_kline_data] looks only at the last five rows and at the
    number of rows: two series that agree on these get the same reply. *)
Theorem kline_reply_depends_on_window (src' : DataSource) (s : string)
        (interval limit : jsval) (ks ks' : list kline) :
  klines_of src (klines_request (String_toUpperCase upper s) interval limit)
  = Normal (Some ks) ->
  klines_of src' (klines_request (String_toUpperCase upper s) interval limit)
  = Normal (Some ks') ->
  Array_slice_last 5 ks = Array_slice_last 5 ks' ->
  length ks = length ks' ->
  outcome (getKlineData upper fmt dfmt dparse src (VStr s) interval limit)
  = outcome (getKlineData upper fmt dfmt dparse src' (VStr s) interval limit).
Proof.
  intros H H' Hwin Hlen. unfold getKlineData. rewrite !outcome_rethrown.
  unfold call_toUpperCase. rewrite !bind_lift_Normal, !outcome_axios_get, H, H'.
  destruct ks as [|k ks0], ks' as [|k' ks0']; try discriminate Hlen; [reflexivity|].
  cbv beta iota. rewrite Hwin, Hlen. reflexivity.
Qed.

End Outcomes.

(** ** The asset label and the limit *)



(** X14.  The limit of an outbound candle request is never falsy: not
    [0], [NaN], [null], [false], the empty string or [undefined]. *)
Theorem limit_sent_is_truthy upper fmt dfmt dparse src (n : string)
        (args : gmap string jsval) (r : request) :
  n = "get_kline_data" \/ n = "get_price_history" ->
  r ∈ sent (CallTool upper fmt dfmt dparse src {| name := n; arguments := Some args |}) ->
  ToBoolean (param "limit" (params r)) = true.
Proof.
  intros Hn Hr. destruct (sent_candle_tool _ _ _ _ _ _ _ _ Hn Hr) as (s & _ & ->).
  change (param "limit" (params (klines_request ?a ?b ?c))) with c.
  unfold or_else. destruct (ToBoolean (prop args "limit")) eqn:E; [exact E|].
  destruct Hn as [-> | ->]; reflexivity.
Qed.

(** ** The further properties at concrete invocations *)

(** X2 at a source that rejects every request. *)
Lemma outbound_failure_is_wrapped_twice_witness :
  let args : gmap string jsval := {[ "symbol" := VStr "btcusdt" ]} in
  let src := rejecting_source "Request failed with status code 400" in
  prop args "symbol" = VStr "btcusdt"
  /\ outcome (Examples.call src "get_current_price" (Some args))
     = Normal (text_result
                 "Error: Failed to fetch current price: Request failed with status code 400")
  /\ outcome (Examples.call src "get_24hr_ticker" (Some args))
     = Normal (text_result
                 "Error: Failed to fetch 24hr ticker: Request failed with status code 400")
  /\ outcome (Examples.call src "get_kline_data" (Some args))
     = Normal (text_result
                 "Error: Failed to fetch kline data: Request failed with status code 400")
  /\ outcome (Examples.call src "get_price_history" (Some args))
     = Normal (text_result
                 "Error: Failed to fetch price history: Request failed with status code 400").
Proof.
  intros args src.
  assert (Hs : prop args "symbol" = VStr "btcusdt") by (vm_compute; reflexivity).
  destruct (outbound_failure_is_wrapped_twice Examples.Unicode_toUpperCase
        en_US.Number_toLocaleString
              Examples.Date_toLocaleString Examples.Date_parse src args "btcusdt"
              (Error "Request failed with status code 400") Hs)
    as (H1 & H2 & H3 & H4).
  exact (conj Hs (conj (H1 eq_refl) (conj (H2 eq_refl) (conj (H3 eq_refl) (H4 eq_refl))))).
Defined.

(** X4 at a 24h ticker query. *)
Lemma every_request_by_tool_witness :
  let call := {| name := "get_24hr_ticker";
                 arguments := Some {[ "symbol" := VStr "ethusdt" ]} |} in
  let r := symbol_request "/ticker/24hr" "ETHUSDT" in
  r ∈ sent (CallTool Examples.Unicode_toUpperCase en_US.Number_toLocaleString
                     Examples.Date_toLocaleString Examples.Date_parse Examples.mock call)
  /\ url r = "https://api.binance.com/api/v3/ticker/24hr"
  /\ exists args s,
       arguments call = Some args
       /\ prop args "symbol" = VStr s
       /\ param "symbol" (params r)
          = VStr (String_toUpperCase Examples.Unicode_toUpperCase s)
       /\ (is_ascii s = true ->
           is_ascii (String_toUpperCase Examples.Unicode_toUpperCase s) = true
           /\ no_lower_case (String_toUpperCase Examples.Unicode_toUpperCase s) = true).
Proof.
  intros call r.
  assert (Hr : r ∈ sent (CallTool Examples.Unicode_toUpperCase
                           en_US.Number_toLocaleString Examples.Date_toLocaleString
                           Examples.Date_parse Examples.mock call))
    by (vm_compute; left).
  destruct (every_request_by_tool Examples.Unicode_toUpperCase
              en_US.Number_toLocaleString Examples.Date_toLocaleString
              Examples.Date_parse Examples.mock call r Hr)
    as (_ & Hsym).
  exact (conj Hr (conj eq_refl Hsym)).
Defined.

(** X5 at two spellings of one symbol. *)
Lemma symbol_case_is_irrelevant_witness :
  String_toUpperCase Examples.Unicode_toUpperCase "btcusdt"
  = String_toUpperCase Examples.Unicode_toUpperCase "BtcUsdt"
  /\ Examples.call Examples.mock "get_price_history"
                   (Some (<["symbol" := VStr "btcusdt"]> ∅))
     = Examples.call Examples.mock "get_price_history"
                     (Some (<["symbol" := VStr "BtcUsdt"]> ∅)).
Proof.
  split; [reflexivity|].
  apply (symbol_case_is_irrelevant Examples.Unicode_toUpperCase en_US.Number_toLocaleString
           Examples.Date_toLocaleString Examples.Date_parse Examples.mock
           "get_price_history" ∅ "btcusdt" "BtcUsdt").
  reflexivity.
Defined.

(** X6 at an argument no tool reads. *)
Lemma unread_arguments_are_ignored_witness :
  let args : gmap string jsval := {[ "symbol" := VStr "btcusdt"; "interval" := VStr "1h" ]} in
  ("window" <> "symbol" /\ "window" <> "interval" /\ "window" <> "limit")
  /\ Examples.call Examples.mock "get_kline_data" (Some (<["window" := VNum 5]> args))
     = Examples.call Examples.mock "get_kline_data" (Some args).
Proof.
  intros args. split; [repeat split; discriminate|].
  apply (unread_arguments_are_ignored Examples.Unicode_toUpperCase en_US.Number_toLocaleString
           Examples.Date_toLocaleString Examples.Date_parse Examples.mock
           "get_kline_data" "window" (VNum 5) args).
  - discriminate.
  - left. split; discriminate.
Defined.

(** X8 at the two-candle series. *)
Lemma kline_reply_shows_last_row_witness :
  let row := [VNum 60000; VStr "105"; VStr "115"; VStr "95"; VStr "110"; VStr "12"] in
  last Examples.two_candles = Some row
  /\ Date_toISOString (Date_new Examples.Date_parse (cell row 0))
     = Normal "1970-01-01T00:01:00.000Z"
  /\ exists cs,
       Array_map (parse_candle Examples.Date_parse) (Array_slice_last 5 Examples.two_candles)
       = Normal cs
       /\ length cs = 2%nat
       /\ outcome (getKlineData Examples.Unicode_toUpperCase en_US.Number_toLocaleString
                                Examples.Date_toLocaleString Examples.Date_parse Examples.mock
                                (VStr "btcusdt") (VStr "1m") (VNum 100))
          = Normal (text_result
              ("📈 BTCUSDT Kline Data (1m interval, last 100 periods):" +:+ nl
               +:+ nl
               +:+ "Latest Candle:" +:+ nl
               +:+ "🕐 Time: 1970-01-01T00:01:00.000Z" +:+ nl
               +:+ "🟢 Open: $105" +:+ nl
               +:+ "🔴 Close: $110" +:+ nl
               +:+ "🔼 High: $115" +:+ nl
               +:+ "🔽 Low: $95" +:+ nl
               +:+ "📊 Volume: 12" +:+ nl
               +:+ nl
               +:+ "Recent 5 candles:" +:+ nl
               +:+ Array_join nl (map (candle_line Examples.Date_toLocaleString
                                                   Examples.Date_parse) cs) +:+ nl
               +:+ nl
               +:+ "Total data points received: 2")).
Proof.
  intros row.
  assert (Hts : Date_toISOString (Date_new Examples.Date_parse (cell row 0))
                = Normal "1970-01-01T00:01:00.000Z") by (vm_compute; reflexivity).
  assert (Hd : Forall (dated Examples.Date_parse) (Array_slice_last 5 Examples.two_candles)).
  { repeat constructor; vm_compute; eauto. }
  exact (conj eq_refl (conj Hts
           (kline_reply_shows_last_row Examples.Unicode_toUpperCase
              en_US.Number_toLocaleString
              Examples.Date_toLocaleString Examples.Date_parse Examples.mock
              "btcusdt" (VStr "1m") (VNum 100) Examples.two_candles row
              "1970-01-01T00:01:00.000Z" eq_refl Hd eq_refl Hts))).
Defined.

(** X11 at a series whose second row is misdated. *)
Lemma invalid_open_time_fails_witness :
  let args : gmap string jsval := {[ "symbol" := VStr "btcusdt"; "interval" := VStr "1m" ]} in
  Exists (fun k => Date_new Examples.Date_parse (cell k 0) = None) misdated_rows
  /\ outcome (Examples.call (candle_source misdated_rows) "get_kline_data" (Some args))
     = Normal (text_result "Error: Failed to fetch kline data: Invalid time value")
  /\ outcome (Examples.call (candle_source misdated_rows) "get_price_history" (Some args))
     = Normal (text_result "Error: Failed to fetch price history: Invalid time value").
Proof.
  intros args.
  assert (Hbad : Exists (fun k => Date_new Examples.Date_parse (cell k 0) = None)
                        misdated_rows)
    by (right; left; vm_compute; reflexivity).
  destruct (invalid_open_time_fails Examples.Unicode_toUpperCase en_US.Number_toLocaleString
              Examples.Date_toLocaleString Examples.Date_parse
              (candle_source misdated_rows) args "btcusdt" misdated_rows eq_refl)
    as [Hk Hh].
  exact (conj Hbad (conj (Hk eq_refl Hbad) (Hh eq_refl Hbad))).
Defined.

(** X12 at two series of six rows that differ in the first. *)
Lemma kline_reply_depends_on_window_witness :
  six_rows <> six_other_rows
  /\ Array_slice_last 5 six_rows = Array_slice_last 5 six_other_rows
  /\ outcome (getKlineData Examples.Unicode_toUpperCase
        en_US.Number_toLocaleString Examples.Date_toLocaleString
                           Examples.Date_parse (candle_source six_rows)
                           (VStr "btcusdt") (VStr "1m") (VNum 100))
     = outcome (getKlineData Examples.Unicode_toUpperCase
           en_US.Number_toLocaleString Examples.Date_toLocaleString
                             Examples.Date_parse (candle_source six_other_rows)
                             (VStr "btcusdt") (VStr "1m") (VNum 100)).
Proof.
  split; [discriminate|]. split; [reflexivity|].
  apply (kline_reply_depends_on_window Examples.Unicode_toUpperCase en_US.Number_toLocaleString
           Examples.Date_toLocaleString Examples.Date_parse
           (candle_source six_rows) (candle_source six_other_rows)
           "btcusdt" (VStr "1m") (VNum 100) six_rows six_other_rows);
    reflexivity.
Defined.


(** X14 at a limit of zero. *)
Lemma limit_sent_is_truthy_witness :
  let args : gmap string jsval :=
    {[ "symbol" := VStr "btcusdt"; "interval" := VStr "1h"; "limit" := VNum 0 ]} in
  let r := klines_request "BTCUSDT" (VStr "1h") (VNum 24) in
  r ∈ sent (Examples.call Examples.mock "get_price_history" (Some args))
  /\ ToBoolean (param "limit" (params r)) = true.
Proof.
  intros args r.
  assert (Hr : r ∈ sent (Examples.call Examples.mock "get_price_history" (Some args)))
    by (vm_compute; left).
  exact (conj Hr (limit_sent_is_truthy Examples.Unicode_toUpperCase en_US.Number_toLocaleString
                    Examples.Date_toLocaleString Examples.Date_parse Examples.mock
                    "get_price_history" args r (or_intror eq_refl) Hr)).
Defined.
